(** * DucoBox Communication Print API client: a shallow embedding

    The development follows [custom_components/ducobox/api.py].  Decoded JSON
    bodies are Python values, every awaited call is a computation over an
    explicit world (the device behind the HTTP session) that may raise a
    Python [Exception], and the requests handed to [session.get] are recorded
    in issue order.  Calls to [_LOGGER] have no effect on results and are
    left out. *)

From Stdlib Require Import ZArith QArith Qround Lia Ascii.
From Stdlib.Floats Require Import SpecFloat.
From stdpp Require Import base list strings pretty sorting.

Local Open Scope string_scope.
Local Open Scope Z_scope.
Local Open Scope list_scope.

#[local] Set Warnings "-register-all".

(** ** Python values *)

(** What [response.json()] can return.  [JNull] is Python's [None]; an
    object is the decoded dict, its bindings in insertion order, one per
    key (a lookup takes the first binding it meets).  Floats are IEEE
    binary64 values. *)
Inductive json : Type :=
  | JNull
  | JBool (b : bool)
  | JInt (z : Z)
  | JFloat (f : spec_float)
  | JStr (s : string)
  | JList (l : list json)
  | JObj (kv : list (string * json)).

(** The subclasses of [Exception] that the client can meet. *)
Inductive exn : Type :=
  | ClientError
  | ClientResponseError (code : Z)
  | TimeoutError
  | DecodeError
  | AttributeError
  | TypeError
  | ValueError
  | OverflowError.

Definition result (A : Type) : Type := (exn + A)%type.

(** ** Floats: binary64 *)

Definition prec64 : Z := 53.
Definition emax64 : Z := 1024.

Definition float_of_Z (z : Z) : spec_float :=
  match z with
  | Z0 => S754_zero false
  | Zpos p => S754_finite false p 0
  | Zneg p => S754_finite true p 0
  end.

Definition float_div (x y : spec_float) : spec_float := SFdiv prec64 emax64 x y.

Definition float_is_zero (f : spec_float) : bool :=
  match f with S754_zero _ => true | _ => false end.

(** [f > 0.0]; false on NaN. *)
Definition float_gt_zero (f : spec_float) : bool :=
  match SFcompare f (S754_zero false) with
  | Some Gt => true
  | _ => false
  end.

(** The rational a finite float stands for. *)
Definition float_to_Q (f : spec_float) : option Q :=
  match f with
  | S754_zero _ => Some 0%Q
  | S754_finite s m e =>
      let mag := match e with
                 | Zneg k => (Zpos m # Z.to_pos (2 ^ Zpos k))%Q
                 | _ => inject_Z (Zpos m * 2 ^ e)
                 end in
      Some (if s then Qopp mag else mag)
  | _ => None
  end.

(** ** Python operators on decoded values *)

(** [bool(v)] *)
Definition truthy (v : json) : bool :=
  match v with
  | JNull => false
  | JBool b => b
  | JInt z => negb (z =? 0)
  | JFloat f => negb (float_is_zero f)
  | JStr s => negb (String.eqb s "")
  | JList l => match l with [] => false | _ => true end
  | JObj kv => match kv with [] => false | _ => true end
  end.

Fixpoint assoc (k : string) (kv : list (string * json)) : option json :=
  match kv with
  | [] => None
  | (k', v) :: rest => if String.eqb k' k then Some v else assoc k rest
  end.

(** [d.get(k, default)]; only a dict has the method. *)
Definition dict_get_default (d : json) (k : string) (default : json) : result json :=
  match d with
  | JObj kv => inr (from_option id default (assoc k kv))
  | _ => inl AttributeError
  end.

(** [d.get(k)] *)
Definition dict_get (d : json) (k : string) : result json :=
  dict_get_default d k JNull.

(** [v > 0] *)
Definition py_gt_zero (v : json) : result bool :=
  match v with
  | JBool b => inr b
  | JInt z => inr (0 <? z)
  | JFloat f => inr (float_gt_zero f)
  | _ => inl TypeError
  end.

(** [n / 10] for an [int]: correctly rounded, [OverflowError] when the
    quotient is too large for a float. *)
Definition int_truediv_10 (z : Z) : result json :=
  match float_div (float_of_Z z) (float_of_Z 10) with
  | S754_infinity _ => inl OverflowError
  | q => inr (JFloat q)
  end.

(** [v / 10] *)
Definition py_div_10 (v : json) : result json :=
  match v with
  | JBool b => int_truediv_10 (if b then 1 else 0)
  | JInt z => int_truediv_10 z
  | JFloat f => inr (JFloat (float_div f (float_of_Z 10)))
  | _ => inl TypeError
  end.

(** A Python number passed where the signature says [float]. *)
Inductive number : Type :=
  | NInt (z : Z)
  | NFloat (f : spec_float).

(** [int(f)] for a float: truncation toward zero. *)
Definition float_trunc (f : spec_float) : result Z :=
  match f with
  | S754_zero _ => inr 0
  | S754_infinity _ => inl OverflowError
  | S754_nan => inl ValueError
  | S754_finite s m e =>
      let mag := match e with
                 | Zneg k => Z.shiftr (Zpos m) (Zpos k)
                 | _ => Zpos m * 2 ^ e
                 end in
      inr (if s then - mag else mag)
  end.

(** [int(value)] *)
Definition py_int (value : number) : result Z :=
  match value with
  | NInt z => inr z
  | NFloat f => float_trunc f
  end.

Definition is_str (k : string) (v : json) : bool :=
  match v with JStr s => String.eqb s k | _ => false end.

(** [needle in hay] on two strings *)
Fixpoint contains (needle hay : string) : bool :=
  if String.prefix needle hay then true
  else match hay with
       | EmptyString => false
       | String _ rest => contains needle rest
       end.

(** [key in data and isinstance(data[key], dict)], with the dict it found:
    [key in data] is a key test on a dict, an element test on a list, a
    substring test on a string and a [TypeError] elsewhere; [data[key]]
    with a string key is a [TypeError] on a list or a string. *)
Definition lookup_dict (data : json) (key : string) : result (option json) :=
  match data with
  | JObj kv =>
      match assoc key kv with
      | Some (JObj p) => inr (Some (JObj p))
      | _ => inr None
      end
  | JList l => if existsb (is_str key) l then inl TypeError else inr None
  | JStr s => if contains key s then inl TypeError else inr None
  | _ => inl TypeError
  end.

(** ** Data model *)

(** Modelled from the spec: the dataclasses of [models.py], which is not
    part of the sources at hand.  Each is a plain record of the keyword
    arguments that [api.py] passes to its constructor; a field holds the
    Python value it was given, [JNull] being [None]. *)
Record DucoBoxNodeData : Type := {
  node_id : Z;
  location : json;
  devtype : json;
  temp : json;
  co2 : json;
  rh : json;
  state : json;
  mode : json;
  swversion : json;
  serialnb : json;
  error : json;
  ovrl : json;
  netw : json;
  cntdwn : json;
  endtime : json;
  rssi_n2m : json;
  rssi_n2h : json;
  hop_via : json;
  asso : json;
  cerr : json
}.

(** Modelled from the spec: the dataclass [DucoBoxEnergyInfo] of [models.py],
    by the keyword arguments of its constructor call. *)
Record DucoBoxEnergyInfo : Type := {
  temp_oda : json;
  temp_sup : json;
  temp_eta : json;
  temp_eha : json;
  bypass_status : json;
  filter_remaining_time : json;
  supply_fan_speed : json;
  supply_fan_pwm_percentage : json;
  exhaust_fan_speed : json;
  exhaust_fan_pwm_percentage : json
}.

(** Modelled from the spec: the dataclass [DucoBoxNodeConfigParam] of
    [models.py]: current value, bounds and step. *)
Record DucoBoxNodeConfigParam : Type := {
  val : json;
  min : json;
  max : json;
  inc : json
}.

(** Modelled from the spec: the dataclass [DucoBoxNodeConfig] of [models.py];
    [cfg_node_id] and [cfg_location] are its [node_id] and [location], and an
    absent parameter is [None]. *)
Record DucoBoxNodeConfig : Type := {
  cfg_node_id : Z;
  co2_setpoint : option DucoBoxNodeConfigParam;
  rh_setpoint : option DucoBoxNodeConfigParam;
  manual1 : option DucoBoxNodeConfigParam;
  manual2 : option DucoBoxNodeConfigParam;
  manual3 : option DucoBoxNodeConfigParam;
  manual_timeout : option DucoBoxNodeConfigParam;
  temp_dependent : option DucoBoxNodeConfigParam;
  rh_delta : option DucoBoxNodeConfigParam;
  sensor_visu_level : option DucoBoxNodeConfigParam;
  auto_min : option DucoBoxNodeConfigParam;
  auto_max : option DucoBoxNodeConfigParam;
  capacity : option DucoBoxNodeConfigParam;
  bypass_mode : option DucoBoxNodeConfigParam;
  bypass_adaptive : option DucoBoxNodeConfigParam;
  comfort_temperature : option DucoBoxNodeConfigParam;
  filter_reset : option DucoBoxNodeConfigParam;
  calib_pin_max : option DucoBoxNodeConfigParam;
  calib_pout_max : option DucoBoxNodeConfigParam;
  calib_qout : option DucoBoxNodeConfigParam;
  program_mode_zone1 : option DucoBoxNodeConfigParam;
  program_mode_zone2 : option DucoBoxNodeConfigParam;
  cfg_location : json
}.

(** Modelled from the spec: the dataclass [DucoBoxData] of [models.py];
    [data_state], [data_mode] and [data_rh] are its [state], [mode] and
    [rh]. *)
Record DucoBoxData : Type := {
  data_state : json;
  time_state_remain : json;
  time_state_end : json;
  data_mode : json;
  flow_lvl_tgt : json;
  data_rh : json;
  energy_info : option DucoBoxEnergyInfo;
  nodes : list DucoBoxNodeData
}.

(** ** The HTTP session *)

(** A query parameter value: an [int] or a [str]. *)
Inductive param : Type :=
  | PInt (z : Z)
  | PStr (s : string).

(** One call of [session.get(url, params=..., timeout=...)]; the timeout is
    in seconds. *)
Record Request : Type := {
  url : string;
  params : list (string * param);
  timeout : Z
}.

(** What the call returns when it does not raise: the status line, and what
    awaiting [response.json()] gives ([None]: the body does not decode). *)
Record Response : Type := {
  status : Z;
  body : option json
}.

Definition BOX_NODE_ID : Z := 1.
Definition REQUEST_TIMEOUT : Z := 10.

(** ** Constants of [DucoCommunicationPrintApi] *)

(** A dict literal, in insertion order. *)
Definition STATE_MAP : list (string * string) :=
  [ ("AUTO", "Auto");
    ("MAN1", "Manual 1");
    ("CNT1", "Manual 1 Forced");
    ("MAN2", "Manual 2");
    ("CNT2", "Manual 2 Forced");
    ("MAN3", "Manual 3");
    ("CNT3", "Manual 3 Forced");
    ("EMPT", "Away") ].

Fixpoint str_lookup (k : string) (d : list (string * string)) : option string :=
  match d with
  | [] => None
  | (k', v) :: rest => if String.eqb k' k then Some v else str_lookup k rest
  end.

(** [d[k] = v]: a present key keeps its place and takes the new value. *)
Fixpoint str_store (k v : string) (d : list (string * string)) : list (string * string) :=
  match d with
  | [] => [(k, v)]
  | (k', v') :: rest =>
      if String.eqb k' k then (k, v) :: rest else (k', v') :: str_store k v rest
  end.

(** [{v: k for k, v in d.items()}] *)
Definition dict_reversed (d : list (string * string)) : list (string * string) :=
  fold_left (fun acc kv => str_store (snd kv) (fst kv) acc) d [].

Definition STATE_REVERSE_MAP : list (string * string) := dict_reversed STATE_MAP.

(** [range(a, b)] *)
Definition range (a b : Z) : list Z := seqZ a (b - a).

Definition node_ranges : list (list Z) := [range 2 11; range 50 101].

Definition box_level_params : list string :=
  [ "BypassMode"; "BypassAdaptive"; "ComfortTemperature"; "FilterReset";
    "CalibPinMax"; "CalibPoutMax"; "CalibQout"; "ProgramModeZone1";
    "ProgramModeZone2" ].

(** [parameter in box_level_params] *)
Definition in_box_level_params (parameter : string) : bool :=
  existsb (String.eqb parameter) box_level_params.

(** ** Code that may raise *)

Definition rbind {A B} (r : result A) (k : A -> result B) : result B :=
  match r with
  | inr a => k a
  | inl e => inl e
  end.

Notation "x <~ r ;; k" := (rbind r (fun x => k))
  (at level 100, r at next level, right associativity).

(** [await response.json()], on a response already received. *)
Definition response_json (response : Response) : result json :=
  match body response with
  | Some data => inr data
  | None => inl DecodeError
  end.

(** [response.raise_for_status()] *)
Definition raise_for_status (response : Response) : result unit :=
  if 400 <=? status response
  then inl (ClientResponseError (status response))
  else inr tt.

(** *** Decoding of [/boxinfoget] *)

(** [d.get(k) / 10 if d.get(k) else None] *)
Definition tenths (d : json) (k : string) : result json :=
  raw <~ dict_get d k ;;
  if truthy raw
  then raw' <~ dict_get d k ;; py_div_10 raw'
  else inr JNull.

(** From [energy_data = data.get("EnergyInfo", {})] to the [return] of
    [async_get_energy_info]. *)
Definition energy_of_data (data : json) : result DucoBoxEnergyInfo :=
  energy_data <~ dict_get_default data "EnergyInfo" (JObj []) ;;
  fan_data <~ dict_get_default data "EnergyFan" (JObj []) ;;
  oda <~ tenths energy_data "TempODA" ;;
  sup <~ tenths energy_data "TempSUP" ;;
  eta <~ tenths energy_data "TempETA" ;;
  eha <~ tenths energy_data "TempEHA" ;;
  bypass <~ dict_get energy_data "BypassStatus" ;;
  filter <~ dict_get energy_data "FilterRemainingTime" ;;
  sfs <~ dict_get fan_data "SupplyFanSpeed" ;;
  sfp <~ dict_get fan_data "SupplyFanPwmPercentage" ;;
  efs <~ dict_get fan_data "ExhaustFanSpeed" ;;
  efp <~ dict_get fan_data "ExhaustFanPwmPercentage" ;;
  inr {| temp_oda := oda;
         temp_sup := sup;
         temp_eta := eta;
         temp_eha := eha;
         bypass_status := bypass;
         filter_remaining_time := filter;
         supply_fan_speed := sfs;
         supply_fan_pwm_percentage := sfp;
         exhaust_fan_speed := efs;
         exhaust_fan_pwm_percentage := efp |}.

(** *** Decoding of a scan probe *)

(** [data.get("rh") if data.get("rh") and data.get("rh") > 0 else None] *)
Definition humidity (data : json) : result json :=
  raw <~ dict_get data "rh" ;;
  if truthy raw
  then raw' <~ dict_get data "rh" ;;
       positive <~ py_gt_zero raw' ;;
       if positive then dict_get data "rh" else inr JNull
  else inr JNull.

(** The keyword arguments of [DucoBoxNodeData(...)], evaluated in order. *)
Definition node_of_data (id : Z) (data : json) : result DucoBoxNodeData :=
  loc <~ dict_get_default data "location" (JStr ("Node " +:+ pretty id)) ;;
  dev <~ dict_get_default data "devtype" (JStr "Unknown") ;;
  v_temp <~ dict_get data "temp" ;;
  v_co2 <~ dict_get data "co2" ;;
  v_rh <~ humidity data ;;
  v_state <~ dict_get data "state" ;;
  v_mode <~ dict_get data "mode" ;;
  v_swversion <~ dict_get data "swversion" ;;
  v_serialnb <~ dict_get data "serialnb" ;;
  v_error <~ dict_get data "error" ;;
  v_ovrl <~ dict_get data "ovrl" ;;
  v_netw <~ dict_get data "netw" ;;
  v_cntdwn <~ dict_get data "cntdwn" ;;
  v_endtime <~ dict_get data "endtime" ;;
  v_rssi_n2m <~ dict_get data "rssi_n2m" ;;
  v_rssi_n2h <~ dict_get data "rssi_n2h" ;;
  v_hop_via <~ dict_get data "hop_via" ;;
  v_asso <~ dict_get data "asso" ;;
  v_cerr <~ dict_get data "cerr" ;;
  inr {| node_id := id;
         location := loc;
         devtype := dev;
         temp := v_temp;
         co2 := v_co2;
         rh := v_rh;
         state := v_state;
         mode := v_mode;
         swversion := v_swversion;
         serialnb := v_serialnb;
         error := v_error;
         ovrl := v_ovrl;
         netw := v_netw;
         cntdwn := v_cntdwn;
         endtime := v_endtime;
         rssi_n2m := v_rssi_n2m;
         rssi_n2h := v_rssi_n2h;
         hop_via := v_hop_via;
         asso := v_asso;
         cerr := v_cerr |}.

(** What the [try] body of the scan loop does with the response it got:
    the node it appends to [nodes], when it appends one. *)
Definition node_of_response (id : Z) (response : Response)
  : result (option DucoBoxNodeData) :=
  if status response =? 200
  then
    data <~ response_json response ;;
    loc <~ dict_get data "location" ;;
    if truthy loc
    then
      dev <~ dict_get data "devtype" ;;
      if truthy dev
      then node <~ node_of_data id data ;; inr (Some node)
      else inr None
    else inr None
  else inr None.

(** *** Decoding of [/nodeconfigget] and [/boxconfigget] *)

(** The local helper [create_param]. *)
Definition create_param (data : json) (key : string)
  : result (option DucoBoxNodeConfigParam) :=
  found <~ lookup_dict data key ;;
  match found with
  | Some param_data =>
      v_val <~ dict_get_default param_data "Val" (JInt 0) ;;
      v_min <~ dict_get_default param_data "Min" (JInt 0) ;;
      v_max <~ dict_get_default param_data "Max" (JInt 0) ;;
      v_inc <~ dict_get_default param_data "Inc" (JInt 1) ;;
      inr (Some {| val := v_val; min := v_min; max := v_max; inc := v_inc |})
  | None => inr None
  end.

(** The [return DucoBoxNodeConfig(...)] of the branch for node 1. *)
Definition box_config_of_data (id : Z) (node_data energy_data : json)
  : result DucoBoxNodeConfig :=
  p_co2 <~ create_param node_data "CO2Setpoint" ;;
  p_rh <~ create_param node_data "RHSetpoint" ;;
  p_man1 <~ create_param node_data "Manual1" ;;
  p_man2 <~ create_param node_data "Manual2" ;;
  p_man3 <~ create_param node_data "Manual3" ;;
  p_timeout <~ create_param node_data "ManualTimeout" ;;
  p_temp <~ create_param node_data "TempDependent" ;;
  p_delta <~ create_param node_data "RHDelta" ;;
  p_visu <~ create_param node_data "SensorVisuLevel" ;;
  p_amin <~ create_param node_data "AutoMin" ;;
  p_amax <~ create_param node_data "AutoMax" ;;
  p_cap <~ create_param node_data "Capacity" ;;
  p_bmode <~ create_param energy_data "BypassMode" ;;
  p_badapt <~ create_param energy_data "BypassAdaptive" ;;
  p_comfort <~ create_param energy_data "ComfortTemperature" ;;
  p_filter <~ create_param energy_data "FilterReset" ;;
  p_pin <~ create_param energy_data "CalibPinMax" ;;
  p_pout <~ create_param energy_data "CalibPoutMax" ;;
  p_qout <~ create_param energy_data "CalibQout" ;;
  p_zone1 <~ create_param energy_data "ProgramModeZone1" ;;
  p_zone2 <~ create_param energy_data "ProgramModeZone2" ;;
  loc <~ dict_get node_data "Location" ;;
  inr {| cfg_node_id := id;
         co2_setpoint := p_co2;
         rh_setpoint := p_rh;
         manual1 := p_man1;
         manual2 := p_man2;
         manual3 := p_man3;
         manual_timeout := p_timeout;
         temp_dependent := p_temp;
         rh_delta := p_delta;
         sensor_visu_level := p_visu;
         auto_min := p_amin;
         auto_max := p_amax;
         capacity := p_cap;
         bypass_mode := p_bmode;
         bypass_adaptive := p_badapt;
         comfort_temperature := p_comfort;
         filter_reset := p_filter;
         calib_pin_max := p_pin;
         calib_pout_max := p_pout;
         calib_qout := p_qout;
         program_mode_zone1 := p_zone1;
         program_mode_zone2 := p_zone2;
         cfg_location := loc |}.

(** The [return DucoBoxNodeConfig(...)] of the branch for the other nodes. *)
Definition node_config_of_data (id : Z) (data : json) : result DucoBoxNodeConfig :=
  p_co2 <~ create_param data "CO2Setpoint" ;;
  p_rh <~ create_param data "RHSetpoint" ;;
  p_man1 <~ create_param data "Manual1" ;;
  p_man2 <~ create_param data "Manual2" ;;
  p_man3 <~ create_param data "Manual3" ;;
  p_timeout <~ create_param data "ManualTimeout" ;;
  p_temp <~ create_param data "TempDependent" ;;
  p_delta <~ create_param data "RHDelta" ;;
  p_visu <~ create_param data "SensorVisuLevel" ;;
  loc <~ dict_get data "Location" ;;
  inr {| cfg_node_id := id;
         co2_setpoint := p_co2;
         rh_setpoint := p_rh;
         manual1 := p_man1;
         manual2 := p_man2;
         manual3 := p_man3;
         manual_timeout := p_timeout;
         temp_dependent := p_temp;
         rh_delta := p_delta;
         sensor_visu_level := p_visu;
         auto_min := None;
         auto_max := None;
         capacity := None;
         bypass_mode := None;
         bypass_adaptive := None;
         comfort_temperature := None;
         filter_reset := None;
         calib_pin_max := None;
         calib_pout_max := None;
         calib_qout := None;
         program_mode_zone1 := None;
         program_mode_zone2 := None;
         cfg_location := loc |}.

(** *** Decoding of the state *)

(** [if state and state in self.STATE_MAP: state = self.STATE_MAP[state]];
    a list or a dict is not hashable. *)
Definition friendly_state (state : json) : result json :=
  if truthy state
  then match state with
       | JStr s => inr (from_option JStr state (str_lookup s STATE_MAP))
       | JList _ | JObj _ => inl TypeError
       | _ => inr state
       end
  else inr state.

(** ** Awaited computations *)

Section Client.

(** The device and network behind the session, and what one GET does to
    them: it raises or it returns a response. *)
Variable World : Type.
Variable session_get : Request -> World -> result Response * World.

(** [self.host] *)
Variable host : string.

(** The world and the requests issued so far, oldest first. *)
Record St : Type := {
  world : World;
  trace : list Request
}.

Definition M (A : Type) : Type := St -> result A * St.

Definition ret {A} (a : A) : M A := fun st => (inr a, st).

Definition raise {A} (e : exn) : M A := fun st => (inl e, st).

Definition bind {A B} (m : M A) (k : A -> M B) : M B :=
  fun st =>
    match m st with
    | (inr a, st') => k a st'
    | (inl e, st') => (inl e, st')
    end.

(** [try: m  except Exception: handler] *)
Definition try_except {A} (m : M A) (handler : exn -> M A) : M A :=
  fun st =>
    match m st with
    | (inr a, st') => (inr a, st')
    | (inl e, st') => handler e st'
    end.

Definition lift {A} (r : result A) : M A :=
  match r with
  | inr a => ret a
  | inl e => raise e
  end.

Notation "x <- m ;; k" := (bind m (fun x => k))
  (at level 100, m at next level, right associativity).

(** [await self.session.get(...)] *)
Definition http_get (req : Request) : M Response :=
  fun st =>
    let (r, w) := session_get req (world st) in
    (r, {| world := w; trace := trace st ++ [req] |}).

(** [for x in xs: acc = body(x, acc)] *)
Fixpoint for_each {A S} (xs : list A) (body : A -> S -> M S) (acc : S) : M S :=
  match xs with
  | [] => ret acc
  | x :: rest => acc' <- body x acc ;; for_each rest body acc'
  end.

Definition base_url : string := "http://" +:+ host.

(** *** [async_get_ventilation_state_options] *)

Definition async_get_ventilation_state_options : M (list string) :=
  ret (map snd STATE_MAP).

(** *** [async_set_ventilation_state] *)

Definition set_state_request (api_state : string) : Request :=
  {| url := base_url +:+ "/nodesetoperstate";
     params := [("node", PInt BOX_NODE_ID); ("value", PStr api_state)];
     timeout := REQUEST_TIMEOUT |}.

Definition async_set_ventilation_state (state : string) : M bool :=
  let api_state := from_option id state (str_lookup state STATE_REVERSE_MAP) in
  response <- http_get (set_state_request api_state) ;;
  _ <- lift (raise_for_status response) ;;
  ret (status response =? 200).

(** *** [async_get_energy_info] *)

Definition box_info_request : Request :=
  {| url := base_url +:+ "/boxinfoget";
     params := [];
     timeout := REQUEST_TIMEOUT |}.

Definition async_get_energy_info : M (option DucoBoxEnergyInfo) :=
  try_except
    (response <- http_get box_info_request ;;
     _ <- lift (raise_for_status response) ;;
     data <- lift (response_json response) ;;
     info <- lift (energy_of_data data) ;;
     ret (Some info))
    (fun _ => ret None).

(** *** [async_get_nodes] *)

Definition probe_request (id : Z) : Request :=
  {| url := base_url +:+ "/nodeinfoget";
     params := [("node", PInt id)];
     timeout := 2 |}.

(** The body of the [try] of the scan loop; [acc] is the list [nodes]. *)
Definition probe (id : Z) (acc : list DucoBoxNodeData) : M (list DucoBoxNodeData) :=
  response <- http_get (probe_request id) ;;
  found <- lift (node_of_response id response) ;;
  match found with
  | Some node => ret (acc ++ [node])
  | None => ret acc
  end.

Definition async_get_nodes : M (list DucoBoxNodeData) :=
  for_each node_ranges
    (fun node_range acc =>
       for_each node_range
         (fun id acc' => try_except (probe id acc') (fun _ => ret acc'))
         acc)
    [].

(** *** [async_get_node_config] *)

Definition node_config_request (id : Z) : Request :=
  {| url := base_url +:+ "/nodeconfigget";
     params := [("node", PInt id)];
     timeout := REQUEST_TIMEOUT |}.

Definition box_config_request : Request :=
  {| url := base_url +:+ "/boxconfigget";
     params := [];
     timeout := REQUEST_TIMEOUT |}.

Definition async_get_node_config (id : Z) : M (option DucoBoxNodeConfig) :=
  try_except
    (if id =? 1
     then
       response <- http_get (node_config_request id) ;;
       node_data <- lift (if status response =? 200
                          then response_json response
                          else inr (JObj [])) ;;
       box_response <- http_get box_config_request ;;
       energy_data <- lift (if status box_response =? 200
                            then box_data <~ response_json box_response ;;
                                 dict_get_default box_data "Energy" (JObj [])
                            else inr (JObj [])) ;;
       config <- lift (box_config_of_data id node_data energy_data) ;;
       ret (Some config)
     else
       response <- http_get (node_config_request id) ;;
       if status response =? 200
       then
         data <- lift (response_json response) ;;
         config <- lift (node_config_of_data id data) ;;
         ret (Some config)
       else ret None)
    (fun _ => ret None).

(** *** [async_set_node_config] *)

Definition box_set_request (parameter : string) (v : Z) : Request :=
  {| url := base_url +:+ "/boxconfigset";
     params := [("mod", PStr "Energy"); ("para", PStr parameter); ("value", PInt v)];
     timeout := REQUEST_TIMEOUT |}.

Definition node_set_request (id : Z) (parameter : string) (v : Z) : Request :=
  {| url := base_url +:+ "/nodeconfigset";
     params := [("node", PInt id); ("para", PStr parameter); ("value", PInt v)];
     timeout := REQUEST_TIMEOUT |}.

Definition async_set_node_config (id : Z) (parameter : string) (value : number)
  : M bool :=
  try_except
    (if (id =? 1) && in_box_level_params parameter
     then
       v <- lift (py_int value) ;;
       response <- http_get (box_set_request parameter v) ;;
       if status response =? 200 then ret true else ret false
     else
       v <- lift (py_int value) ;;
       response <- http_get (node_set_request id parameter v) ;;
       if status response =? 200 then ret true else ret false)
    (fun _ => ret false).

(** *** [async_set_node_override] *)

Definition override_request (id percentage : Z) : Request :=
  {| url := base_url +:+ "/nodesetoverrule";
     params := [("node", PInt id); ("value", PInt percentage)];
     timeout := REQUEST_TIMEOUT |}.

Definition async_set_node_override (id percentage : Z) : M bool :=
  try_except
    (response <- http_get (override_request id percentage) ;;
     if status response =? 200 then ret true else ret false)
    (fun _ => ret false).

(** *** [async_get_data] *)

Definition state_request : Request :=
  {| url := base_url +:+ "/nodeinfoget";
     params := [("node", PInt BOX_NODE_ID)];
     timeout := REQUEST_TIMEOUT |}.

Definition async_get_data (fetch_energy fetch_nodes : bool) : M DucoBoxData :=
  response <- http_get state_request ;;
  _ <- lift (raise_for_status response) ;;
  data <- lift (response_json response) ;;
  v_state <- lift (dict_get data "state") ;;
  v_mode <- lift (dict_get data "mode") ;;
  v_trgt <- lift (dict_get data "trgt") ;;
  v_rh <- lift (dict_get data "rh") ;;
  v_state' <- lift (friendly_state v_state) ;;
  v_cntdwn <- lift (dict_get data "cntdwn") ;;
  v_endtime <- lift (dict_get data "endtime") ;;
  energy <- (if fetch_energy then async_get_energy_info else ret None) ;;
  found <- (if fetch_nodes then async_get_nodes else ret []) ;;
  ret {| data_state := v_state';
         time_state_remain := v_cntdwn;
         time_state_end := v_endtime;
         data_mode := v_mode;
         flow_lvl_tgt := v_trgt;
         data_rh := v_rh;
         energy_info := energy;
         nodes := found |}.

End Client.

Arguments world {World} _.
Arguments trace {World} _.
Arguments Build_St {World} _ _.
Arguments ret {World A} _ _.
Arguments raise {World A} _ _.
Arguments bind {World A B} _ _ _.
Arguments try_except {World A} _ _ _.
Arguments lift {World A} _ _.
Arguments http_get {World} _ _ _.
Arguments for_each {World A S} _ _ _ _.

(** ** Notions used by the statements *)

(** The ids of both ranges, low range first. *)
Definition candidates : list Z := seqZ 2 9 ++ seqZ 50 51.

(** One probe per id, in order, whatever the earlier ones returned or
    raised: each id with the outcome of its own probe, and the world left
    behind. *)
Fixpoint scan_replies {World : Type}
    (session_get : Request -> World -> result Response * World)
    (host : string) (ids : list Z) (w : World)
  : list (Z * result Response) * World :=
  match ids with
  | [] => ([], w)
  | id :: rest =>
      let (r, w') := session_get (probe_request host id) w in
      let (rs, w'') := scan_replies session_get host rest w' in
      ((id, r) :: rs, w'')
  end.

(** What one probe outcome adds to the node list. *)
Definition contribution (probed : Z * result Response) : option DucoBoxNodeData :=
  match snd probed with
  | inr response =>
      match node_of_response (fst probed) response with
      | inr found => found
      | inl _ => None
      end
  | inl _ => None
  end.

(** The value of a field of a record; [JNull] when the record has no such
    field or is not an object. *)
Definition field (data : json) (k : string) : json :=
  match data with
  | JObj kv => from_option id JNull (assoc k kv)
  | _ => JNull
  end.

(** The presence rule: HTTP 200, a body that decodes, and [location] and
    [devtype] both present and non-empty. *)
Definition presence_rule (r : result Response) : bool :=
  match r with
  | inr response =>
      match body response with
      | Some data =>
          (status response =? 200)
          && truthy (field data "location")
          && truthy (field data "devtype")
      | None => false
      end
  | inl _ => false
  end.

Definition is_number (v : json) : bool :=
  match v with
  | JBool _ | JInt _ | JFloat _ => true
  | _ => false
  end.

(** A number above zero ([True] counts as 1, NaN is not above zero). *)
Definition strictly_positive (v : json) : bool :=
  match v with
  | JBool b => b
  | JInt z => 0 <? z
  | JFloat f => float_gt_zero f
  | _ => false
  end.

(** The [rh] field of the body can be compared with zero: it is missing,
    falsy, or a number. *)
Definition humidity_comparable (r : result Response) : bool :=
  match r with
  | inr response =>
      match body response with
      | Some data => negb (truthy (field data "rh")) || is_number (field data "rh")
      | None => false
      end
  | inl _ => false
  end.

Definition is_object (v : json) : bool :=
  match v with JObj _ => true | _ => false end.

(** A sub-call of the config read is at fault: it raised, or it answered 200
    with a body that does not decode to an object. *)
Definition call_fault (r : result Response) : bool :=
  match r with
  | inr response =>
      (status response =? 200)
      && negb (from_option is_object false (body response))
  | inl _ => true
  end.

(** Truncation toward zero of a rational. *)
Definition Qtrunc (q : Q) : Z :=
  if Qle_bool 0 q then Qfloor q else Qceiling q.


(** The rational a finite Python number stands for. *)
Definition number_to_Q (value : number) : option Q :=
  match value with
  | NInt z => Some (inject_Z z)
  | NFloat f => float_to_Q f
  end.

(** ** Devices used in the examples *)

(** Answers every request the same way, and has no state. *)
Definition constant_device (r : result Response)
  : Request -> unit -> result Response * unit :=
  fun _ w => (r, w).

(** Answers by the url alone. *)
Definition url_device (answer : string -> result Response)
  : Request -> unit -> result Response * unit :=
  fun req w => (answer (url req), w).

(** A device at host [duco] that remembers the state code it was last sent
    and reports it as the [state] of node 1. *)
Definition echo_device : Request -> string -> result Response * string :=
  fun req current =>
    if String.eqb (url req) "http://duco/nodesetoperstate"
    then match params req with
         | [_; (_, PStr code)] => (inr {| status := 200; body := None |}, code)
         | _ => (inr {| status := 400; body := None |}, current)
         end
    else (inr {| status := 200;
                 body := Some (JObj [("devtype", JStr "BOX");
                                     ("state", JStr current)]) |}, current).

(** A device at host [duco] whose node config read fails with status 500
    while its box config read succeeds. *)
Definition half_answering (u : string) : result Response :=
  if String.eqb u "http://duco/nodeconfigget"
  then inr {| status := 500; body := None |}
  else inr {| status := 200;
              body := Some (JObj [("Energy",
                                   JObj [("BypassMode",
                                          JObj [("Val", JInt 1);
                                                ("Max", JInt 2)])])]) |}.

(** A device at host [duco] whose node config read succeeds while the body
    of its box config read does not decode. *)
Definition box_undecodable (u : string) : result Response :=
  if String.eqb u "http://duco/nodeconfigget"
  then inr {| status := 200;
              body := Some (JObj [("CO2Setpoint", JObj [("Val", JInt 800)])]) |}
  else inr {| status := 200; body := None |}.


(** A device on which node 2 and node 4 are sensors, the probe of node 3
    times out, and no other node exists. *)
Definition flaky_device : Request -> unit -> result Response * unit :=
  fun req w =>
    match params req with
    | [(_, PInt 3)] => (inl TimeoutError, w)
    | [(_, PInt 2)] =>
        (inr {| status := 200;
                body := Some (JObj [("location", JStr "Bath");
                                    ("devtype", JStr "UCRH");
                                    ("rh", JInt 61)]) |}, w)
    | [(_, PInt 4)] =>
        (inr {| status := 200;
                body := Some (JObj [("location", JStr "Hall");
                                    ("devtype", JStr "UCCO2");
                                    ("rh", JInt 0)]) |}, w)
    | _ => (inr {| status := 404; body := None |}, w)
    end.

Definition start {World : Type} (w : World) : St World := {| world := w; trace := [] |}.

(** * The rest of the client *)

(** ** Detection *)

(** [key in data]: a key test on a dict, an element test on a list, a
    substring test on a string, a [TypeError] elsewhere. *)
Definition key_in (key : string) (data : json) : result bool :=
  match data with
  | JObj kv => inr (match assoc key kv with Some _ => true | None => false end)
  | JList l => inr (existsb (is_str key) l)
  | JStr s => inr (contains key s)
  | _ => inl TypeError
  end.

(** What [detect_api_type] returns: the one client class. *)
Inductive ApiClass : Type :=
  | DucoCommunicationPrintApi.

(** Modelled from the spec: the dataclass [DucoBoxDeviceInfo] of [models.py],
    by the keyword arguments of its constructor call. *)
Record DucoBoxDeviceInfo : Type := {
  model : string;
  api_version : json;
  serial_number : json;
  mac_address : json
}.

(** [s.replace("_", " ")] *)
Fixpoint replace_underscores (s : string) : string :=
  match s with
  | EmptyString => EmptyString
  | String c rest =>
      String (if Ascii.eqb c "_"%char then " "%char else c) (replace_underscores rest)
  end.

Section Setup.

Variable World : Type.
Variable session_get : Request -> World -> result Response * World.
Variable host : string.

(** Python's [str(v)] as used by an f-string, [s.strip()] and [s.title()]:
    builtins, taken as they are. *)
Variable py_str : json -> string.
Variable py_strip : string -> string.
Variable py_title : string -> string.

Notation "x <- m ;; k" := (bind m (fun x => k))
  (at level 100, m at next level, right associativity).

Definition detect_request : Request :=
  {| url := base_url host +:+ "/nodeinfoget";
     params := [("node", PInt BOX_NODE_ID)];
     timeout := 5 |}.

(** The [try] block of [detect_api_type]: the class it returns, or [None]
    when control leaves the block without returning. *)
Definition detect_attempt : M World (option ApiClass) :=
  response <- http_get session_get detect_request ;;
  if status response =? 200
  then
    data <- lift (response_json response) ;;
    has_devtype <- lift (key_in "devtype" data) ;;
    if has_devtype
    then
      has_state <- lift (key_in "state" data) ;;
      if has_state then ret (Some DucoCommunicationPrintApi) else ret None
    else ret None
  else ret None.

Definition detect_api_type : M World ApiClass :=
  returned <- try_except detect_attempt (fun _ => ret None) ;;
  match returned with
  | Some api => ret api
  | None => raise ClientError
  end.

(** *** [async_get_device_info] *)

Definition device_info_request : Request :=
  {| url := base_url host +:+ "/nodeinfoget";
     params := [("node", PInt BOX_NODE_ID)];
     timeout := REQUEST_TIMEOUT |}.

(** [f"{model_name} {location}".strip().replace("_", " ").title()] *)
Definition model_label (model_name location : json) : string :=
  py_title (replace_underscores (py_strip (py_str model_name +:+ " " +:+ py_str location))).

Definition async_get_device_info : M World DucoBoxDeviceInfo :=
  response <- http_get session_get device_info_request ;;
  _ <- lift (raise_for_status response) ;;
  data <- lift (response_json response) ;;
  model_name <- lift (dict_get_default data "devtype" (JStr "Unknown")) ;;
  serial <- lift (dict_get data "serialnb") ;;
  sw_version <- lift (dict_get data "swversion") ;;
  loc <- lift (dict_get_default data "location" (JStr "")) ;;
  match serial with
  | JNull => raise ClientError
  | _ =>
      ret {| model := model_label model_name loc;
             api_version := sw_version;
             serial_number := serial;
             mac_address := JNull |}
  end.

End Setup.

(** ** More notions used by the statements *)

(** [key] occurs in [data] the way [in] tests it; false where [in] raises. *)
Definition mentions (key : string) (data : json) : bool :=
  match data with
  | JObj kv => bool_decide (is_Some (assoc key kv))
  | JList l => existsb (is_str key) l
  | JStr s => contains key s
  | _ => false
  end.

(** The detection rule: HTTP 200 and a body that decodes and mentions
    [devtype] and [state]. *)
Definition detected (r : result Response) : bool :=
  match r with
  | inr response =>
      (status response =? 200)
      && match body response with
         | Some data => mentions "devtype" data && mentions "state" data
         | None => false
         end
  | inl _ => false
  end.

(** The range a config field stands for: only an object is one, and its
    missing bounds are 0 and its missing step 1. *)
Definition param_of (v : json) : option DucoBoxNodeConfigParam :=
  match v with
  | JObj p =>
      Some {| val := from_option id (JInt 0) (assoc "Val" p);
              min := from_option id (JInt 0) (assoc "Min" p);
              max := from_option id (JInt 0) (assoc "Max" p);
              inc := from_option id (JInt 1) (assoc "Inc" p) |}
  | _ => None
  end.

(** A non-empty list or object: truthy and not hashable. *)
Definition unhashable (v : json) : bool :=
  match v with
  | JList (_ :: _) | JObj (_ :: _) => true
  | _ => false
  end.

(** The label of a state code of the table; any other value as it is. *)
Definition label_of (v : json) : json :=
  match v with
  | JStr s => match str_lookup s STATE_MAP with
              | Some label => JStr label
              | None => v
              end
  | _ => v
  end.

(** An energy info with every field absent. *)
Definition no_energy_info : DucoBoxEnergyInfo :=
  {| temp_oda := JNull;
     temp_sup := JNull;
     temp_eta := JNull;
     temp_eha := JNull;
     bypass_status := JNull;
     filter_remaining_time := JNull;
     supply_fan_speed := JNull;
     supply_fan_pwm_percentage := JNull;
     exhaust_fan_speed := JNull;
     exhaust_fan_pwm_percentage := JNull |}.

(** What a state read does when it fails, and the body it works on when it
    does not. *)
Definition state_read (r : result Response) : result (list (string * json)) :=
  match r with
  | inl e => inl e
  | inr response =>
      if 400 <=? status response
      then inl (ClientResponseError (status response))
      else match body response with
           | None => inl DecodeError
           | Some (JObj kv) => inr kv
           | Some _ => inl AttributeError
           end
  end.

(** ASCII-only stand-ins for the string builtins, for the examples: they
    agree with Python on the strings the examples use. *)
Definition example_str (v : json) : string :=
  match v with
  | JStr s => s
  | JInt z => pretty z
  | JNull => "None"
  | _ => ""
  end.

(** The configuration that the body of [/nodeconfigget] stands for, for a
    node other than the box. *)
Definition node_level_config (id : Z) (data : json) : DucoBoxNodeConfig :=
  {| cfg_node_id := id;
     co2_setpoint := param_of (field data "CO2Setpoint");
     rh_setpoint := param_of (field data "RHSetpoint");
     manual1 := param_of (field data "Manual1");
     manual2 := param_of (field data "Manual2");
     manual3 := param_of (field data "Manual3");
     manual_timeout := param_of (field data "ManualTimeout");
     temp_dependent := param_of (field data "TempDependent");
     rh_delta := param_of (field data "RHDelta");
     sensor_visu_level := param_of (field data "SensorVisuLevel");
     auto_min := None;
     auto_max := None;
     capacity := None;
     bypass_mode := None;
     bypass_adaptive := None;
     comfort_temperature := None;
     filter_reset := None;
     calib_pin_max := None;
     calib_pout_max := None;
     calib_qout := None;
     program_mode_zone1 := None;
     program_mode_zone2 := None;
     cfg_location := field data "Location" |}.

(** The configuration that the bodies of [/nodeconfigget] and of
    [/boxconfigget] stand for together, for the box. *)
Definition merged_config (id : Z) (node_data box_data : json) : DucoBoxNodeConfig :=
  let energy := field box_data "Energy" in
  {| cfg_node_id := id;
     co2_setpoint := param_of (field node_data "CO2Setpoint");
     rh_setpoint := param_of (field node_data "RHSetpoint");
     manual1 := param_of (field node_data "Manual1");
     manual2 := param_of (field node_data "Manual2");
     manual3 := param_of (field node_data "Manual3");
     manual_timeout := param_of (field node_data "ManualTimeout");
     temp_dependent := param_of (field node_data "TempDependent");
     rh_delta := param_of (field node_data "RHDelta");
     sensor_visu_level := param_of (field node_data "SensorVisuLevel");
     auto_min := param_of (field node_data "AutoMin");
     auto_max := param_of (field node_data "AutoMax");
     capacity := param_of (field node_data "Capacity");
     bypass_mode := param_of (field energy "BypassMode");
     bypass_adaptive := param_of (field energy "BypassAdaptive");
     comfort_temperature := param_of (field energy "ComfortTemperature");
     filter_reset := param_of (field energy "FilterReset");
     calib_pin_max := param_of (field energy "CalibPinMax");
     calib_pout_max := param_of (field energy "CalibPoutMax");
     calib_qout := param_of (field energy "CalibQout");
     program_mode_zone1 := param_of (field energy "ProgramModeZone1");
     program_mode_zone2 := param_of (field energy "ProgramModeZone2");
     cfg_location := field node_data "Location" |}.

(** The first read of the box configuration ends the operation: it raised,
    or it answered 200 with a body that does not decode. *)
Definition read_aborts (r : result Response) : bool :=
  match r with
  | inr response =>
      (status response =? 200)
      && match body response with Some _ => false | None => true end
  | inl _ => true
  end.

(** A device at host [duco] that answers the node config and the box
    config reads. *)
Definition config_device (u : string) : result Response :=
  if String.eqb u "http://duco/nodeconfigget"
  then inr {| status := 200;
              body := Some (JObj [("CO2Setpoint",
                                   JObj [("Val", JInt 800); ("Min", JInt 400);
                                         ("Max", JInt 2000); ("Inc", JInt 10)]);
                                  ("Manual1", JObj []);
                                  ("Location", JStr "Living")]) |}
  else inr {| status := 200;
              body := Some (JObj [("Energy",
                                   JObj [("ComfortTemperature",
                                          JObj [("Val", JInt 0)])])]) |}.

(** The code that the table gives for a label. *)
Definition code_of_label (label : string) : option string :=
  fst <$> find (fun entry => String.eqb (snd entry) label) STATE_MAP.

(** A value that [in] cannot search: [None], a boolean or a number. *)
Definition is_scalar (v : json) : bool :=
  match v with
  | JNull | JBool _ | JInt _ | JFloat _ => true
  | _ => false
  end.

(** What [flaky_device] answers, as a function of the request alone. *)
Definition flaky_answer (req : Request) : result Response :=
  fst (flaky_device req tt).

(** The same device once node 3 answers. *)
Definition steady_answer (req : Request) : result Response :=
  match params req with
  | [(_, PInt i)] =>
      if i =? 3
      then inr {| status := 200;
                  body := Some (JObj [("location", JStr "Attic");
                                      ("devtype", JStr "UCCO2")]) |}
      else flaky_answer req
  | _ => flaky_answer req
  end.

(** A device at host [duco] whose box config carries a null [Energy]
    section. *)
Definition null_energy_device (u : string) : result Response :=
  if String.eqb u "http://duco/nodeconfigget"
  then inr {| status := 200;
              body := Some (JObj [("CO2Setpoint", JObj [("Val", JInt 800)])]) |}
  else inr {| status := 200; body := Some (JObj [("Energy", JNull)]) |}.

(** * Properties *)

(** ** Running awaited computations *)

Section Run.
Context {World : Type} (get : Request -> World -> result Response * World).

Lemma run_get {A} req (k : Response -> M World A) st :
  bind (http_get get req) k st =
    match get req (world st) with
    | (inr response, w) => k response {| world := w; trace := trace st ++ [req] |}
    | (inl e, w) => (inl e, {| world := w; trace := trace st ++ [req] |})
    end.
Proof.
  unfold bind, http_get. destruct (get req (world st)) as [[e|response] w]; reflexivity.
Qed.

Lemma run_lift {A B} (r : result A) (k : A -> M World B) st :
  bind (lift r) k st =
    match r with
    | inr a => k a st
    | inl e => (inl e, st)
    end.
Proof. destruct r; reflexivity. Qed.

Lemma run_try {A} (m : M World A) (handler : exn -> M World A) st :
  try_except m handler st =
    match m st with
    | (inr a, st') => (inr a, st')
    | (inl e, st') => handler e st'
    end.
Proof. reflexivity. Qed.
End Run.

(** ** The scan as one probe per candidate *)

Lemma scan_replies_app {World} (get : Request -> World -> result Response * World)
    host ids1 ids2 w :
  scan_replies get host (ids1 ++ ids2) w =
    let (rs1, w1) := scan_replies get host ids1 w in
    let (rs2, w2) := scan_replies get host ids2 w1 in
    (rs1 ++ rs2, w2).
Proof.
  revert w. induction ids1 as [|i ids1 IH]; intros w; simpl.
  - destruct (scan_replies get host ids2 w); reflexivity.
  - destruct (get (probe_request host i) w) as [r w'].
    rewrite IH.
    destruct (scan_replies get host ids1 w') as [rs1 w1].
    destruct (scan_replies get host ids2 w1) as [rs2 w2]. reflexivity.
Qed.

Lemma probe_step {World} (get : Request -> World -> result Response * World)
    host id acc st :
  try_except (probe World get host id acc) (fun _ => ret acc) st =
    let (r, w) := get (probe_request host id) (world st) in
    (inr (acc ++ option_list (contribution (id, r))),
     {| world := w; trace := trace st ++ [probe_request host id] |}).
Proof.
  unfold try_except, probe, bind, http_get, contribution; simpl.
  destruct (get (probe_request host id) (world st)) as [[e|response] w]; simpl.
  - rewrite app_nil_r. reflexivity.
  - destruct (node_of_response id response) as [e|[node|]]; simpl;
      rewrite ?app_nil_r; reflexivity.
Qed.

Lemma scan_range {World} (get : Request -> World -> result Response * World)
    host ids acc st :
  for_each ids (fun id acc' => try_except (probe World get host id acc') (fun _ => ret acc'))
    acc st =
    let (rs, w) := scan_replies get host ids (world st) in
    (inr (acc ++ omap contribution rs),
     {| world := w; trace := trace st ++ map (probe_request host) ids |}).
Proof.
  revert acc st. induction ids as [|i ids IH]; intros acc st; simpl.
  - rewrite !app_nil_r. destruct st; reflexivity.
  - unfold bind at 1. rewrite probe_step.
    destruct (get (probe_request host i) (world st)) as [r w].
    rewrite IH; simpl.
    destruct (scan_replies get host ids w) as [rs w'].
    rewrite <- !app_assoc. simpl.
    destruct (contribution (i, r)); reflexivity.
Qed.

Lemma scan_all {World} (get : Request -> World -> result Response * World) host st :
  async_get_nodes World get host st =
    let (rs, w) := scan_replies get host candidates (world st) in
    (inr (omap contribution rs),
     {| world := w; trace := trace st ++ map (probe_request host) candidates |}).
Proof.
  unfold async_get_nodes, node_ranges, candidates.
  change (range 2 11) with (seqZ 2 9). change (range 50 101) with (seqZ 50 51).
  cbn [for_each]. unfold bind.
  rewrite scan_range, scan_replies_app.
  destruct (scan_replies get host (seqZ 2 9) (world st)) as [rs1 w1].
  rewrite scan_range. cbn [world trace].
  destruct (scan_replies get host (seqZ 50 51) w1) as [rs2 w2].
  rewrite omap_app, map_app, app_assoc. reflexivity.
Qed.

Lemma scan_replies_ids {World} (get : Request -> World -> result Response * World)
    host ids w :
  map fst (fst (scan_replies get host ids w)) = ids.
Proof.
  revert w. induction ids as [|i ids IH]; intros w; simpl; [reflexivity|].
  destruct (get (probe_request host i) w) as [r w'].
  specialize (IH w'). destruct (scan_replies get host ids w') as [rs w''].
  simpl in *. now rewrite IH.
Qed.

Lemma nodes_return {World} (get : Request -> World -> result Response * World)
    host st :
  exists found st', async_get_nodes World get host st = (inr found, st').
Proof.
  rewrite scan_all. destruct (scan_replies _ _ _ _); eauto.
Qed.

(** ** What a probe contributes *)

Lemma humidity_obj kv :
  humidity (JObj kv) =
    let raw := field (JObj kv) "rh" in
    if truthy raw
    then match py_gt_zero raw with
         | inr positive => inr (if positive then raw else JNull)
         | inl e => inl e
         end
    else inr JNull.
Proof.
  unfold humidity, dict_get, dict_get_default, field, rbind.
  destruct (truthy _); [|reflexivity].
  destruct (py_gt_zero _) as [e|[|]]; reflexivity.
Qed.

Lemma humidity_result data h :
  humidity data = inr h ->
  h = if strictly_positive (field data "rh") then field data "rh" else JNull.
Proof.
  destruct data; try discriminate. rewrite humidity_obj. cbv zeta.
  destruct (field (JObj kv) "rh") as [|b|z|f|s|l|kv']; simpl; try congruence.
  - destruct b; congruence.
  - destruct (z =? 0) eqn:E; simpl; [|congruence].
    apply Z.eqb_eq in E; subst; simpl. congruence.
  - destruct f as [[]|[]| |[] m e]; simpl; congruence.
  - destruct (String.eqb s ""); simpl; congruence.
  - destruct l; simpl; congruence.
  - destruct kv'; simpl; congruence.
Qed.

Lemma humidity_defined kv :
  (exists h, humidity (JObj kv) = inr h) <->
  negb (truthy (field (JObj kv) "rh")) || is_number (field (JObj kv) "rh") = true.
Proof.
  rewrite humidity_obj. cbv zeta.
  destruct (field (JObj kv) "rh") as [|b|z|f|s|l|kv']; simpl.
  - split; eauto.
  - rewrite orb_true_r. destruct b; split; eauto.
  - rewrite orb_true_r. destruct (negb _); split; eauto.
  - rewrite orb_true_r. destruct (negb _); split; eauto.
  - rewrite orb_false_r. destruct (negb (String.eqb s "")); simpl; split; eauto;
      try discriminate. intros [? ?]; discriminate.
  - rewrite orb_false_r. destruct l; simpl; split; eauto; try discriminate.
    intros [? ?]; discriminate.
  - rewrite orb_false_r. destruct kv'; simpl; split; eauto; try discriminate.
    intros [? ?]; discriminate.
Qed.

Lemma node_of_data_obj id kv :
  node_of_data id (JObj kv) =
    match humidity (JObj kv) with
    | inr h =>
        let data := JObj kv in
        inr {| node_id := id;
               location := from_option Datatypes.id (JStr ("Node " +:+ pretty id)) (assoc "location" kv);
               devtype := from_option Datatypes.id (JStr "Unknown") (assoc "devtype" kv);
               temp := field data "temp";
               co2 := field data "co2";
               rh := h;
               state := field data "state";
               mode := field data "mode";
               swversion := field data "swversion";
               serialnb := field data "serialnb";
               error := field data "error";
               ovrl := field data "ovrl";
               netw := field data "netw";
               cntdwn := field data "cntdwn";
               endtime := field data "endtime";
               rssi_n2m := field data "rssi_n2m";
               rssi_n2h := field data "rssi_n2h";
               hop_via := field data "hop_via";
               asso := field data "asso";
               cerr := field data "cerr" |}
    | inl e => inl e
    end.
Proof.
  unfold node_of_data, dict_get, dict_get_default, field.
  cbn [rbind]. destruct (humidity (JObj kv)); reflexivity.
Qed.

Lemma contribution_Some id r n :
  contribution (id, r) = Some n ->
  exists response data,
    r = inr response /\ body response = Some data /\ node_id n = id /\
    rh n = if strictly_positive (field data "rh") then field data "rh" else JNull.
Proof.
  unfold contribution, node_of_response; simpl.
  destruct r as [e|response]; [discriminate|].
  destruct (status response =? 200); [|discriminate].
  unfold response_json. destruct (body response) as [data|] eqn:Hbody; [|discriminate].
  destruct data as [| | | | | |kv]; try discriminate.
  unfold dict_get, dict_get_default; cbn [rbind].
  destruct (truthy _); [|discriminate].
  destruct (truthy _); [|discriminate].
  rewrite node_of_data_obj.
  destruct (humidity (JObj kv)) as [e|h] eqn:Hh; [discriminate|].
  cbv zeta. intros [= <-]. exists response, (JObj kv).
  repeat split; try assumption. cbn [rh]. now apply humidity_result.
Qed.

Lemma contribution_is_Some id r :
  is_Some (contribution (id, r)) <->
  presence_rule r = true /\ humidity_comparable r = true.
Proof.
  assert (Hno : forall P : Prop, is_Some (@None DucoBoxNodeData) <-> false = true /\ P).
  { intros P; split; [intros [? ?]|intros [? _]]; congruence. }
  unfold contribution, node_of_response, presence_rule, humidity_comparable.
  cbn [fst snd].
  destruct r as [e|response]; [apply Hno|].
  unfold response_json. destruct (body response) as [data|].
  2:{ destruct (status response =? 200); apply Hno. }
  destruct (status response =? 200); cbn [andb rbind]; [|apply Hno].
  destruct data as [| | | | | |kv]; try apply Hno.
  unfold dict_get, dict_get_default; cbn [rbind].
  change (from_option Datatypes.id JNull (assoc "location" kv))
    with (field (JObj kv) "location").
  change (from_option Datatypes.id JNull (assoc "devtype" kv))
    with (field (JObj kv) "devtype").
  destruct (truthy (field (JObj kv) "location")); cbn [andb]; [|apply Hno].
  destruct (truthy (field (JObj kv) "devtype")); cbn [andb]; [|apply Hno].
  rewrite node_of_data_obj, <- humidity_defined.
  destruct (humidity (JObj kv)) as [e|h]; cbv zeta; cbn [rbind]; split.
  - intros [? ?]; congruence.
  - intros [_ [? ?]]; congruence.
  - eauto.
  - eauto.
Qed.

Lemma contributions_in_order (rs : list (Z * result Response)) :
  sublist (map node_id (omap contribution rs)) (map fst rs).
Proof.
  induction rs as [|[id r] rs IH]; simpl; [constructor|].
  destruct (contribution (id, r)) as [n|] eqn:Hn; simpl.
  - apply contribution_Some in Hn as (? & ? & _ & _ & -> & _).
    now apply sublist_skip.
  - now apply sublist_cons.
Qed.

Lemma scan_replies_stateless (answer : Request -> result Response) host ids w :
  scan_replies (fun req (u : unit) => (answer req, u)) host ids w =
    (map (fun id => (id, answer (probe_request host id))) ids, w).
Proof.
  induction ids as [|i ids IH]; simpl; [reflexivity|]. now rewrite IH.
Qed.

(** A fault at one candidate removes that candidate from the result and
    nothing else: two devices that answer alike except that the first one
    raises at [j] give the same nodes apart from node [j]. *)
Lemma scan_fault_only_removes (f g : Request -> result Response)
    (host : string) (j : Z) (e : exn) (st : St unit) :
  f (probe_request host j) = inl e ->
  (forall i, i <> j -> f (probe_request host i) = g (probe_request host i)) ->
  exists found_f found_g,
    fst (async_get_nodes unit (fun req u => (f req, u)) host st) = inr found_f
    /\ fst (async_get_nodes unit (fun req u => (g req, u)) host st) = inr found_g
    /\ found_f = filter (fun n => node_id n <> j) found_g.
Proof.
  intros Hj Hother. rewrite !scan_all, !scan_replies_stateless.
  eexists; eexists; split; [reflexivity|]; split; [reflexivity|].
  induction candidates as [|i ids IH]; [reflexivity|]. cbn [map omap list_omap].
  destruct (decide (i = j)) as [->|Hne].
  - unfold contribution at 1; cbn [fst snd]. rewrite Hj.
    destruct (contribution (j, g (probe_request host j))) as [n|] eqn:Hn;
      [|exact IH].
    apply contribution_Some in Hn as (_ & _ & _ & _ & Hid & _).
    rewrite filter_cons_False by (intros H; now apply H). exact IH.
  - rewrite (Hother i Hne).
    destruct (contribution (i, g (probe_request host i))) as [n|] eqn:Hn;
      [|exact IH].
    apply contribution_Some in Hn as (_ & _ & _ & _ & Hid & _).
    rewrite filter_cons_True by congruence. now rewrite IH.
Qed.

(** ** The candidate ids *)

Lemma candidates_range id :
  id ∈ candidates <-> 2 <= id <= 10 \/ 50 <= id <= 100.
Proof.
  unfold candidates. rewrite elem_of_app, !elem_of_seqZ. lia.
Qed.


(** An example scan: node 3 times out, nodes 2 and 4 are found, and the
    zero humidity of node 4 is dropped. *)
Example scan_flaky_device :
  let run := async_get_nodes unit flaky_device "duco" (start tt) in
  option_map (map (fun n => (node_id n, location n, rh n)))
             (match fst run with inr found => Some found | inl _ => None end)
    = Some [(2, JStr "Bath", JInt 61); (4, JStr "Hall", JNull)]
  /\ length (trace (snd run)) = 60%nat.
Proof. split; vm_compute; reflexivity. Qed.

(** ** Scanner claims *)

(** C3, as stated, fails: a probe answered with HTTP 200, a body that
    decodes and non-empty [location] and [devtype] does not put the
    candidate in the list when its [rh] field is a non-empty string, because
    comparing it with zero raises and the fault is swallowed. *)
Lemma presence_rule_not_sufficient :
  let device :=
    constant_device
      (inr {| status := 200;
              body := Some (JObj [("location", JStr "Hall");
                                  ("devtype", JStr "UCRH");
                                  ("rh", JStr "n/a")]) |}) in
  exists r,
    (2, r) ∈ fst (scan_replies device "duco" candidates tt)
    /\ presence_rule r = true
    /\ fst (async_get_nodes unit device "duco" (start tt)) = inr [].
Proof.
  cbv zeta. eexists. split; [|split].
  - apply list_elem_of_In. vm_compute. left. reflexivity.
  - reflexivity.
  - vm_compute. reflexivity.
Qed.

(** C3, amended: a candidate id is the id of a returned node if and only if
    its probe returned HTTP 200, the body decoded, [location] and [devtype]
    are present and non-empty, and the [rh] field is missing, falsy or a
    number; on every other outcome the candidate is absent. *)
Theorem scan_presence {World} (get : Request -> World -> result Response * World)
    (host : string) (st : St World) :
  exists found,
    fst (async_get_nodes World get host st) = inr found
    /\ forall id,
      (exists n, n ∈ found /\ node_id n = id) <->
      (exists r, (id, r) ∈ fst (scan_replies get host candidates (world st))
                 /\ presence_rule r = true
                 /\ humidity_comparable r = true).
Proof.
  rewrite scan_all.
  destruct (scan_replies get host candidates (world st)) as [rs w].
  eexists; split; [reflexivity|]. cbn [fst]. intros id; split.
  - intros (n & Hn & <-). apply list_elem_of_omap in Hn as ([id' r] & Hin & Hc).
    assert (Hid : node_id n = id').
    { pose proof (contribution_Some _ _ _ Hc) as (? & ? & _ & _ & Hid & _).
      exact Hid. }
    rewrite Hid. exists r. split; [assumption|].
    apply (contribution_is_Some id' r). rewrite Hc. eauto.
  - intros (r & Hin & Hp & Hh).
    destruct (proj2 (contribution_is_Some id r) (conj Hp Hh)) as [n Hc].
    exists n. split.
    + apply list_elem_of_omap. exists (id, r). auto.
    + now apply contribution_Some in Hc as (_ & _ & _ & _ & ? & _).
Qed.

(** C4: the scan never raises; whatever any probe raised or returned, every
    candidate is probed, once and in order, and the node list is made of
    what each candidate's own reply decodes to, a raised fault contributing
    nothing. *)
Theorem scan_isolation {World} (get : Request -> World -> result Response * World)
    (host : string) (st : St World) :
  let (replies, w) := scan_replies get host candidates (world st) in
  async_get_nodes World get host st =
    (inr (omap contribution replies),
     {| world := w; trace := trace st ++ map (probe_request host) candidates |})
  /\ map fst replies = candidates
  /\ forall id e, contribution (id, inl e) = None.
Proof.
  pose proof (scan_all get host st) as Hall.
  pose proof (scan_replies_ids get host candidates (world st)) as Hids.
  destruct (scan_replies get host candidates (world st)) as [rs w].
  auto.
Qed.


(** C7: every returned node has [rh] equal to the raw humidity of its probe
    when that is strictly positive, and [None] when it is missing or not
    strictly positive. *)
Theorem humidity_sanitized {World} (get : Request -> World -> result Response * World)
    (host : string) (st : St World) :
  exists found,
    fst (async_get_nodes World get host st) = inr found
    /\ Forall
         (fun n =>
            exists response data,
              (node_id n, inr response)
                ∈ fst (scan_replies get host candidates (world st))
              /\ body response = Some data
              /\ (strictly_positive (field data "rh") = true ->
                  rh n = field data "rh")
              /\ (strictly_positive (field data "rh") = false ->
                  rh n = JNull))
         found.
Proof.
  rewrite scan_all.
  destruct (scan_replies get host candidates (world st)) as [rs w].
  eexists; split; [reflexivity|]. cbn [fst].
  apply Forall_forall. intros n Hn.
  apply list_elem_of_omap in Hn as ([id r] & Hin & Hc).
  apply contribution_Some in Hc as (response & data & -> & Hbody & <- & Hrh).
  exists response, data. split; [assumption|]. split; [assumption|].
  rewrite Hrh. split; intros ->; reflexivity.
Qed.

(** ** Energy info *)



Lemma energy_info_returns {World} (get : Request -> World -> result Response * World)
    host st :
  exists energy st', async_get_energy_info World get host st = (inr energy, st').
Proof.
  unfold async_get_energy_info. rewrite run_try.
  destruct (bind _ _ st) as [[e|energy] st']; eauto.
Qed.



(** ** Node configuration *)

Lemma box_config_needs_object id node_data energy_data config :
  box_config_of_data id node_data energy_data = inr config ->
  is_object node_data = true.
Proof.
  destruct node_data; try reflexivity; unfold box_config_of_data;
    repeat match goal with
    | |- context [create_param ?d ?k] =>
        destruct (create_param d k); cbn [rbind]; [discriminate|]
    end; discriminate.
Qed.

(** C1, as stated, fails: when the node config call answers with status
    500 and the box config call succeeds, the result is a configuration
    with the box-level slots filled and the node-level slots empty. *)
Lemma config_partial_merge :
  fst (url_device half_answering (node_config_request "duco" 1) tt)
    = inr {| status := 500; body := None |}
  /\ exists config,
       fst (async_get_node_config unit (url_device half_answering) "duco" 1 (start tt))
         = inr (Some config)
       /\ co2_setpoint config = None
       /\ bypass_mode config =
            Some {| val := JInt 1; min := JInt 0; max := JInt 2; inc := JInt 1 |}.
Proof.
  split; [reflexivity|]. eexists. split; [vm_compute; reflexivity|].
  split; reflexivity.
Qed.

(** C1, amended: for node 1, when either sub-call raises, or answers 200
    with a body that does not decode to an object, the result is [None]. *)
Theorem config_fault_gives_none {World}
    (get : Request -> World -> result Response * World)
    (host : string) (st : St World) r1 w1 r2 w2 :
  get (node_config_request host 1) (world st) = (r1, w1) ->
  get (box_config_request host) w1 = (r2, w2) ->
  call_fault r1 = true \/ call_fault r2 = true ->
  fst (async_get_node_config World get host 1 st) = inr None.
Proof.
  intros H1 H2 Hfault.
  unfold async_get_node_config. change (1 =? 1) with true. cbv iota.
  rewrite run_try, run_get, H1.
  destruct r1 as [e1|resp1]; [reflexivity|].
  rewrite run_lift.
  destruct (if status resp1 =? 200 then response_json resp1 else inr (JObj []))
    as [e|node_data] eqn:Hnode; [reflexivity|].
  rewrite run_get. cbn [world]. rewrite H2.
  destruct r2 as [e2|resp2]; [reflexivity|].
  rewrite run_lift.
  destruct (if status resp2 =? 200 then _ else _) as [e|energy_data] eqn:Henergy;
    [reflexivity|].
  rewrite run_lift.
  destruct (box_config_of_data 1 node_data energy_data) as [e|config] eqn:Hconfig;
    [reflexivity|].
  exfalso. apply box_config_needs_object in Hconfig.
  unfold call_fault, response_json in *.
  destruct Hfault as [Hf|Hf]; apply andb_prop in Hf as [Hs Hb].
  - rewrite Hs in Hnode. destruct (body resp1) as [d|]; [|discriminate].
    injection Hnode as ->. simpl in Hb. now rewrite Hconfig in Hb.
  - rewrite Hs in Henergy. destruct (body resp2) as [d|]; [|discriminate].
    cbn [rbind] in Henergy. destruct d; first [discriminate Henergy|discriminate Hb].
Qed.

(** C1, amended, on a device whose box config body does not decode. *)
Lemma config_fault_gives_none_witness :
  call_fault (fst (url_device box_undecodable (box_config_request "duco") tt)) = true
  /\ fst (async_get_node_config unit (url_device box_undecodable) "duco" 1 (start tt))
     = inr None.
Proof.
  split; [reflexivity|].
  exact (config_fault_gives_none (url_device box_undecodable) "duco" (start tt)
           _ _ _ _ eq_refl eq_refl (or_intror eq_refl)).
Defined.

(** ** Writes *)

Lemma Qtrunc_inject (z : Z) : Qtrunc (inject_Z z) = z.
Proof.
  unfold Qtrunc. destruct (Qle_bool 0 (inject_Z z)).
  - apply Qfloor_Z.
  - apply Qceiling_Z.
Qed.

Lemma Qtrunc_opp_inject (z : Z) : Qtrunc (- inject_Z z) = - z.
Proof.
  change (- inject_Z z)%Q with (inject_Z (- z)). apply Qtrunc_inject.
Qed.

Lemma Qtrunc_frac (m d : positive) : Qtrunc (Zpos m # d) = Zpos m / Zpos d.
Proof. reflexivity. Qed.

Lemma Qtrunc_opp_frac (m d : positive) : Qtrunc (- (Zpos m # d)) = - (Zpos m / Zpos d).
Proof.
  unfold Qtrunc, Qceiling, Qfloor, Qle_bool; simpl. reflexivity.
Qed.

Lemma float_trunc_spec f q : float_to_Q f = Some q -> float_trunc f = inr (Qtrunc q).
Proof.
  destruct f as [s|s| |s m e]; simpl; try discriminate.
  - intros [= <-]. reflexivity.
  - intros [= <-]. f_equal.
    destruct e as [|p|k].
    + destruct s; [rewrite Qtrunc_opp_inject|rewrite Qtrunc_inject]; reflexivity.
    + destruct s; [rewrite Qtrunc_opp_inject|rewrite Qtrunc_inject]; reflexivity.
    + assert (Hd : Z.pos (Z.to_pos (2 ^ Z.pos k)) = 2 ^ Z.pos k).
      { apply Z2Pos.id. apply Z.pow_pos_nonneg; lia. }
      rewrite Z.shiftr_div_pow2 by lia.
      destruct s; [rewrite Qtrunc_opp_frac|rewrite Qtrunc_frac]; now rewrite Hd.
Qed.

Lemma py_int_spec value q : number_to_Q value = Some q -> py_int value = inr (Qtrunc q).
Proof.
  destruct value as [z|f]; simpl.
  - intros [= <-]. now rewrite Qtrunc_inject.
  - apply float_trunc_spec.
Qed.

Lemma in_box_level_params_spec parameter :
  in_box_level_params parameter = true <->
  parameter ∈ ["BypassMode"; "BypassAdaptive"; "ComfortTemperature"; "FilterReset";
               "CalibPinMax"; "CalibPoutMax"; "CalibQout"; "ProgramModeZone1";
               "ProgramModeZone2"].
Proof.
  unfold in_box_level_params. rewrite existsb_exists. unfold box_level_params.
  split.
  - intros (x & Hin & Heq). apply String.eqb_eq in Heq. subst x.
    now apply list_elem_of_In.
  - intros Hin. exists parameter. split; [now apply list_elem_of_In|apply String.eqb_refl].
Qed.

(** C2, as stated, fails: [async_set_ventilation_state] lets a transport
    fault through, and raises on an error status. *)
Lemma set_state_raises :
  fst (async_set_ventilation_state unit (constant_device (inl TimeoutError))
         "duco" "Away" (start tt)) = inl TimeoutError
  /\ fst (async_set_ventilation_state unit
            (constant_device (inr {| status := 503; body := None |}))
            "duco" "Away" (start tt)) = inl (ClientResponseError 503).
Proof. split; reflexivity. Qed.

(** C2, amended: [async_set_node_config] and [async_set_node_override]
    never raise and return [True] exactly when the request was answered with
    status 200; [async_set_ventilation_state] raises what the transport
    raised, raises on a status of 400 or more, and otherwise tells whether
    the status was 200. *)
Theorem write_outcomes {World} (get : Request -> World -> result Response * World)
    (host : string) (st : St World) :
  (forall id parameter value,
     fst (async_set_node_config World get host id parameter value st) =
       inr match py_int value with
           | inr v =>
               let req := if (id =? 1) && in_box_level_params parameter
                          then box_set_request host parameter v
                          else node_set_request host id parameter v in
               match fst (get req (world st)) with
               | inr response => status response =? 200
               | inl _ => false
               end
           | inl _ => false
           end)
  /\ (forall id percentage,
        fst (async_set_node_override World get host id percentage st) =
          inr match fst (get (override_request host id percentage) (world st)) with
              | inr response => status response =? 200
              | inl _ => false
              end)
  /\ (forall state,
        let api_state := default state (str_lookup state STATE_REVERSE_MAP) in
        fst (async_set_ventilation_state World get host state st) =
          match fst (get (set_state_request host api_state) (world st)) with
          | inr response =>
              if 400 <=? status response
              then inl (ClientResponseError (status response))
              else inr (status response =? 200)
          | inl e => inl e
          end).
Proof.
  split; [|split].
  - intros id parameter value.
    unfold async_set_node_config, try_except, bind, http_get, lift.
    destruct ((id =? 1) && in_box_level_params parameter);
      destruct (py_int value) as [e|v]; cbn [ret raise fst]; try reflexivity.
    + destruct (get (box_set_request host parameter v) (world st)) as [[e|resp] w];
        cbn [fst]; [reflexivity|]. destruct (status resp =? 200); reflexivity.
    + destruct (get (node_set_request host id parameter v) (world st)) as [[e|resp] w];
        cbn [fst]; [reflexivity|]. destruct (status resp =? 200); reflexivity.
  - intros id percentage.
    unfold async_set_node_override, try_except, bind, http_get.
    destruct (get (override_request host id percentage) (world st)) as [[e|resp] w];
      cbn [fst]; [reflexivity|]. destruct (status resp =? 200); reflexivity.
  - intros state api_state.
    unfold async_set_ventilation_state, bind, http_get, lift, raise_for_status.
    fold api_state.
    destruct (get (set_state_request host api_state) (world st)) as [[e|resp] w];
      cbn [fst]; [reflexivity|]. destruct (400 <=? status resp); reflexivity.
Qed.

(** C6: a write of a finite value to node 1 of a parameter of the box-level
    set is one request to [boxconfigset] with [mod=Energy]; any other write
    is one request to [nodeconfigset] with the node id; both carry the value
    truncated toward zero. *)
Theorem set_config_routing {World} (get : Request -> World -> result Response * World)
    (host : string) (st : St World) (id : Z) (parameter : string)
    (value : number) (q : Q) :
  number_to_Q value = Some q ->
  let box_level :=
    parameter ∈ ["BypassMode"; "BypassAdaptive"; "ComfortTemperature"; "FilterReset";
                 "CalibPinMax"; "CalibPoutMax"; "CalibQout"; "ProgramModeZone1";
                 "ProgramModeZone2"] in
  let request :=
    if bool_decide (id = 1 /\ box_level)
    then {| url := "http://" +:+ host +:+ "/boxconfigset";
            params := [("mod", PStr "Energy"); ("para", PStr parameter);
                       ("value", PInt (Qtrunc q))];
            timeout := 10 |}
    else {| url := "http://" +:+ host +:+ "/nodeconfigset";
            params := [("node", PInt id); ("para", PStr parameter);
                       ("value", PInt (Qtrunc q))];
            timeout := 10 |} in
  trace (snd (async_set_node_config World get host id parameter value st))
    = trace st ++ [request]
  /\ fst (async_set_node_config World get host id parameter value st)
       = inr match fst (get request (world st)) with
             | inr response => status response =? 200
             | inl _ => false
             end.
Proof.
  intros Hq box_level request.
  assert (Hroute : (id =? 1) && in_box_level_params parameter
                   = bool_decide (id = 1 /\ box_level)).
  { destruct (bool_decide (id = 1 /\ box_level)) eqn:Hd.
    - apply bool_decide_eq_true in Hd as [-> Hin].
      apply in_box_level_params_spec in Hin. now rewrite Hin.
    - apply bool_decide_eq_false in Hd. apply not_true_is_false. intros Hb.
      apply andb_prop in Hb as [Hid Hin]. apply Hd. split; [lia|].
      now apply in_box_level_params_spec. }
  unfold async_set_node_config. rewrite run_try, Hroute.
  apply py_int_spec in Hq.
  assert (Hreq : request = if bool_decide (id = 1 /\ box_level)
                           then box_set_request host parameter (Qtrunc q)
                           else node_set_request host id parameter (Qtrunc q)).
  { subst request. destruct (bool_decide (id = 1 /\ box_level)); reflexivity. }
  clearbody request. subst request.
  destruct (bool_decide (id = 1 /\ box_level));
    rewrite run_lift, Hq, run_get;
    match goal with
    | |- context [get ?r (world st)] =>
        destruct (get r (world st)) as [[e|response] w]
    end; cbn [fst snd];
    try match goal with
    | |- context [status ?r =? 200] => destruct (status r =? 200)
    end;
    split; reflexivity.
Qed.

(** C6 on [ComfortTemperature] of node 1 set to -2.75. *)
Lemma set_config_routing_witness :
  number_to_Q (NFloat (S754_finite true 11 (-2))) = Some (- (11 # 4))%Q
  /\ Qtrunc (- (11 # 4)) = -2
  /\ trace (snd (async_set_node_config unit
                   (constant_device (inr {| status := 200; body := None |}))
                   "duco" 1 "ComfortTemperature"
                   (NFloat (S754_finite true 11 (-2))) (start tt)))
     = [{| url := "http://duco/boxconfigset";
           params := [("mod", PStr "Energy"); ("para", PStr "ComfortTemperature");
                      ("value", PInt (-2))];
           timeout := 10 |}].
Proof.
  split; [reflexivity|]. split; [reflexivity|].
  exact (proj1 (set_config_routing
                  (constant_device (inr {| status := 200; body := None |}))
                  "duco" (start tt) 1 "ComfortTemperature"
                  (NFloat (S754_finite true 11 (-2))) (- (11 # 4))%Q eq_refl)).
Defined.

(** ** State labels *)

Lemma state_table_consistent :
  Forall (fun entry =>
            str_lookup (snd entry) STATE_REVERSE_MAP = Some (fst entry)
            /\ str_lookup (fst entry) STATE_MAP = Some (snd entry))
         STATE_MAP.
Proof. repeat constructor. Qed.

(** C9: every entry of the table maps label to code and code to label; and
    when a state is set by a label of the table and the device then reports
    the code it was sent, the state read returns that label. *)
Theorem state_round_trip :
  Forall (fun entry =>
            str_lookup (snd entry) STATE_REVERSE_MAP = Some (fst entry)
            /\ str_lookup (fst entry) STATE_MAP = Some (snd entry))
         STATE_MAP
  /\ forall (World : Type) (get : Request -> World -> result Response * World)
       (host : string) (st st1 : St World) (code label : string) (ok : bool)
       (response : Response) (w2 : World) (kv : list (string * json))
       (fetch_energy fetch_nodes : bool),
      (code, label) ∈ STATE_MAP ->
      async_set_ventilation_state World get host label st = (inr ok, st1) ->
      get (state_request host) (world st1) = (inr response, w2) ->
      status response < 400 ->
      body response = Some (JObj kv) ->
      assoc "state" kv = Some (JStr code) ->
      trace st1 =
        trace st ++ [{| url := "http://" +:+ host +:+ "/nodesetoperstate";
                        params := [("node", PInt 1); ("value", PStr code)];
                        timeout := 10 |}]
      /\ exists data st2,
           async_get_data World get host fetch_energy fetch_nodes st1 = (inr data, st2)
           /\ data_state data = JStr label.
Proof.
  split; [apply state_table_consistent|].
  intros World get host st st1 code label ok response w2 kv fe fn
    Hin Hset Hget Hstatus Hbody Hstate.
  pose proof state_table_consistent as Htable.
  rewrite Forall_forall in Htable. destruct (Htable _ Hin) as [Hrev Hfwd].
  cbn [fst snd] in Hrev, Hfwd.
  split.
  - unfold async_set_ventilation_state in Hset. rewrite Hrev in Hset.
    cbn [from_option id] in Hset. rewrite run_get in Hset.
    destruct (get (set_state_request host code) (world st)) as [[e|r] w];
      cbv beta iota in Hset; [discriminate Hset|].
    rewrite run_lift in Hset.
    destruct (raise_for_status r); cbv beta iota in Hset; [discriminate Hset|].
    injection Hset as _ <-. reflexivity.
  - assert (Hne : truthy (JStr code) = true).
    { apply list_elem_of_In in Hin. simpl in Hin.
      repeat (destruct Hin as [[= <- <-]|Hin]; [reflexivity|]). destruct Hin. }
    assert (Hfriendly : friendly_state (JStr code) = inr (JStr label)).
    { unfold friendly_state. now rewrite Hne, Hfwd. }
    assert (Hok : raise_for_status response = inr tt).
    { unfold raise_for_status. destruct (400 <=? status response) eqn:Hs; [lia|reflexivity]. }
    unfold async_get_data. rewrite run_get, Hget.
    rewrite run_lift, Hok. unfold response_json. rewrite run_lift, Hbody.
    unfold dict_get, dict_get_default.
    rewrite Hstate. cbn [from_option id].
    repeat (rewrite run_lift; cbv beta iota).
    rewrite Hfriendly. repeat (rewrite run_lift; cbv beta iota).
    set (st' := {| world := w2; trace := trace st1 ++ [state_request host] |}).
    unfold bind at 1.
    assert (Hen : exists energy sta,
               (if fe then async_get_energy_info World get host else ret None) st'
               = (inr energy, sta)).
    { destruct fe; [apply energy_info_returns|unfold ret; eauto]. }
    destruct Hen as (energy & sta & ->).
    unfold bind at 1.
    assert (Hno : exists found stb,
               (if fn then async_get_nodes World get host else ret []) sta
               = (inr found, stb)).
    { destruct fn; [apply nodes_return|unfold ret; eauto]. }
    destruct Hno as (found & stb & ->).
    unfold ret. eauto.
Qed.

(** C9 on a device that echoes the code it was sent, for [Away]. *)
Lemma state_round_trip_witness :
  exists st1 data st2,
    async_set_ventilation_state string echo_device "duco" "Away" (start "AUTO")
      = (inr true, st1)
    /\ trace st1 = [{| url := "http://duco/nodesetoperstate";
                       params := [("node", PInt 1); ("value", PStr "EMPT")];
                       timeout := 10 |}]
    /\ async_get_data string echo_device "duco" true true st1 = (inr data, st2)
    /\ data_state data = JStr "Away".
Proof.
  eexists.
  destruct (proj2 state_round_trip string echo_device "duco" (start "AUTO") _
              "EMPT" "Away" true _ _ _ true true
              ltac:(apply list_elem_of_In; simpl; tauto)
              eq_refl eq_refl ltac:(simpl; lia) eq_refl eq_refl)
    as (Htrace & data & st2 & Hdata & Hstate).
  exists data, st2. repeat split; assumption.
Defined.

(** C10: the options are the eight labels in table order; no request is
    issued, the world is left as it was, and nothing is raised. *)
Theorem state_options_fixed {World} (st : St World) :
  async_get_ventilation_state_options World st =
    (inr ["Auto"; "Manual 1"; "Manual 1 Forced"; "Manual 2"; "Manual 2 Forced";
          "Manual 3"; "Manual 3 Forced"; "Away"],
     st).
Proof. reflexivity. Qed.

(** * Further properties *)

(** ** The scanner *)

Lemma contribution_fields id r n :
  contribution (id, r) = Some n ->
  exists response data,
    r = inr response /\ status response = 200 /\ body response = Some data
    /\ node_id n = id
    /\ (location n = field data "location" /\ truthy (location n) = true)
    /\ (devtype n = field data "devtype" /\ truthy (devtype n) = true)
    /\ temp n = field data "temp"
    /\ co2 n = field data "co2"
    /\ state n = field data "state"
    /\ mode n = field data "mode"
    /\ swversion n = field data "swversion"
    /\ serialnb n = field data "serialnb"
    /\ error n = field data "error"
    /\ ovrl n = field data "ovrl"
    /\ netw n = field data "netw"
    /\ cntdwn n = field data "cntdwn"
    /\ endtime n = field data "endtime"
    /\ rssi_n2m n = field data "rssi_n2m"
    /\ rssi_n2h n = field data "rssi_n2h"
    /\ hop_via n = field data "hop_via"
    /\ asso n = field data "asso"
    /\ cerr n = field data "cerr".
Proof.
  unfold contribution, node_of_response; cbn [fst snd].
  destruct r as [e|response]; [discriminate|].
  destruct (status response =? 200) eqn:Hstatus; [|discriminate].
  apply Z.eqb_eq in Hstatus.
  unfold response_json. destruct (body response) as [data|] eqn:Hbody; [|discriminate].
  destruct data as [| | | | | |kv]; try discriminate.
  unfold dict_get, dict_get_default; cbn [rbind].
  destruct (truthy (default JNull (assoc "location" kv))) eqn:Hloc; [|discriminate].
  destruct (truthy (default JNull (assoc "devtype" kv))) eqn:Hdev; [|discriminate].
  rewrite node_of_data_obj.
  destruct (humidity (JObj kv)) as [e|h]; [discriminate|].
  cbv zeta. cbn [rbind]. intros [= <-]. exists response, (JObj kv).
  cbn [node_id location devtype temp co2 state mode swversion serialnb error ovrl
       netw cntdwn endtime rssi_n2m rssi_n2h hop_via asso cerr].
  unfold field.
  destruct (assoc "location" kv) as [loc|]; [|discriminate Hloc].
  destruct (assoc "devtype" kv) as [dev|]; [|discriminate Hdev].
  cbn [from_option Datatypes.id] in *. repeat split; assumption || reflexivity.
Qed.

Lemma candidates_NoDup : NoDup candidates.
Proof. apply (bool_decide_unpack _). vm_compute. exact I. Qed.

(** X1: the nodes of a scan have pairwise distinct ids, all within 2..10 or
    50..100 (never the box unit 1), so there are at most 60 of them. *)
Theorem scan_ids_distinct {World} (get : Request -> World -> result Response * World)
    (host : string) (st : St World) :
  exists found,
    fst (async_get_nodes World get host st) = inr found
    /\ NoDup (map node_id found)
    /\ Forall (fun n => 2 <= node_id n <= 10 \/ 50 <= node_id n <= 100) found
    /\ (length found <= 60)%nat.
Proof.
  rewrite scan_all.
  pose proof (scan_replies_ids get host candidates (world st)) as Hids.
  destruct (scan_replies get host candidates (world st)) as [rs w].
  cbn [fst] in *. eexists; split; [reflexivity|].
  pose proof (contributions_in_order rs) as Hsub. rewrite Hids in Hsub.
  split; [|split].
  - eapply sublist_NoDup; [apply candidates_NoDup|exact Hsub].
  - apply Forall_forall. intros n Hn. apply candidates_range.
    eapply elem_of_sublist; [|exact Hsub]. now apply list_elem_of_fmap_2.
  - apply sublist_length in Hsub. now rewrite length_map in Hsub.
Qed.

(** X2: every field of a returned node other than [rh] is the field of the
    probe's body as it came: [location] and [devtype] are the non-empty
    values of the body, never the placeholders of the constructor call, and
    a zero temperature or CO2 reading is kept. *)
Theorem scan_fields_raw {World} (get : Request -> World -> result Response * World)
    (host : string) (st : St World) :
  exists found,
    fst (async_get_nodes World get host st) = inr found
    /\ Forall
         (fun n =>
            exists response data,
              (node_id n, inr response)
                ∈ fst (scan_replies get host candidates (world st))
              /\ body response = Some data
              /\ (location n = field data "location" /\ truthy (location n) = true)
              /\ (devtype n = field data "devtype" /\ truthy (devtype n) = true)
              /\ temp n = field data "temp"
              /\ co2 n = field data "co2"
              /\ state n = field data "state"
              /\ mode n = field data "mode"
              /\ swversion n = field data "swversion"
              /\ serialnb n = field data "serialnb"
              /\ error n = field data "error"
              /\ ovrl n = field data "ovrl"
              /\ netw n = field data "netw"
              /\ cntdwn n = field data "cntdwn"
              /\ endtime n = field data "endtime"
              /\ rssi_n2m n = field data "rssi_n2m"
              /\ rssi_n2h n = field data "rssi_n2h"
              /\ hop_via n = field data "hop_via"
              /\ asso n = field data "asso"
              /\ cerr n = field data "cerr")
         found.
Proof.
  rewrite scan_all.
  destruct (scan_replies get host candidates (world st)) as [rs w].
  eexists; split; [reflexivity|]. cbn [fst].
  apply Forall_forall. intros n Hn.
  apply list_elem_of_omap in Hn as ([id r] & Hin & Hc).
  apply contribution_fields in Hc
    as (response & data & -> & _ & Hbody & <- & Hrest).
  exists response, data. split; [assumption|]. split; assumption.
Qed.

(** ** Energy info *)

(** The decoding that follows the request of [async_get_energy_info]. *)
Lemma energy_info_run {World} (get : Request -> World -> result Response * World)
    host st :
  async_get_energy_info World get host st =
    let (r, w) := get (box_info_request host) (world st) in
    (inr match r with
         | inr response =>
             match raise_for_status response, response_json response with
             | inr _, inr data =>
                 match energy_of_data data with
                 | inr info => Some info
                 | inl _ => None
                 end
             | _, _ => None
             end
         | inl _ => None
         end,
     {| world := w; trace := trace st ++ [box_info_request host] |}).
Proof.
  unfold async_get_energy_info. rewrite run_try, run_get.
  destruct (get (box_info_request host) (world st)) as [[e|response] w];
    [reflexivity|].
  rewrite run_lift. destruct (raise_for_status response); [reflexivity|].
  rewrite run_lift. destruct (response_json response) as [e|data]; [reflexivity|].
  rewrite run_lift. destruct (energy_of_data data); reflexivity.
Qed.

Lemma state_read_ok r kv :
  state_read r = inr kv ->
  exists response,
    r = inr response /\ raise_for_status response = inr tt
    /\ response_json response = inr (JObj kv).
Proof.
  unfold state_read, raise_for_status, response_json.
  destruct r as [e|response]; [discriminate|].
  destruct (400 <=? status response) eqn:Hs; [discriminate|].
  destruct (body response) as [[| | | | | |kv']|] eqn:Hb; try discriminate.
  intros [= <-]. exists response. now rewrite Hs, Hb.
Qed.

Lemma state_read_failed r e :
  state_read r = inl e ->
  match r with
  | inr response =>
      match raise_for_status response, response_json response with
      | inr _, inr data => is_object data = false
      | _, _ => True
      end
  | inl _ => True
  end.
Proof.
  unfold state_read, raise_for_status, response_json.
  destruct r as [e'|response]; [trivial|].
  destruct (400 <=? status response); [trivial|].
  destruct (body response) as [[| | | | | |kv']|]; try discriminate; trivial.
Qed.

(** X3: [async_get_energy_info] never raises and issues exactly one request,
    [/boxinfoget] without parameters and with the 10 second timeout; when
    that request raises, is answered with a status of 400 or more, or with a
    body that does not decode to an object, the result is [None]. *)
Theorem energy_info_soft_fail {World}
    (get : Request -> World -> result Response * World)
    (host : string) (st : St World) :
  let request := {| url := "http://" +:+ host +:+ "/boxinfoget";
                    params := [];
                    timeout := 10 |} in
  exists info,
    async_get_energy_info World get host st =
      (inr info,
       {| world := snd (get request (world st)); trace := trace st ++ [request] |})
    /\ match state_read (fst (get request (world st))) with
       | inl _ => info = None
       | inr _ => True
       end.
Proof.
  intros request. change request with (box_info_request host).
  rewrite energy_info_run.
  destruct (get (box_info_request host) (world st)) as [r w]. cbn [fst snd].
  eexists; split; [reflexivity|].
  destruct (state_read r) as [e|kv] eqn:Hread; [|trivial].
  apply state_read_failed in Hread. destruct r as [e'|response]; [reflexivity|].
  destruct (raise_for_status response); [reflexivity|].
  destruct (response_json response) as [e'|data]; [reflexivity|].
  destruct data; try discriminate; reflexivity.
Qed.

Lemma energy_of_data_fields data info :
  energy_of_data data = inr info ->
  bypass_status info = field (field data "EnergyInfo") "BypassStatus"
  /\ filter_remaining_time info = field (field data "EnergyInfo") "FilterRemainingTime"
  /\ supply_fan_speed info = field (field data "EnergyFan") "SupplyFanSpeed"
  /\ supply_fan_pwm_percentage info
     = field (field data "EnergyFan") "SupplyFanPwmPercentage"
  /\ exhaust_fan_speed info = field (field data "EnergyFan") "ExhaustFanSpeed"
  /\ exhaust_fan_pwm_percentage info
     = field (field data "EnergyFan") "ExhaustFanPwmPercentage".
Proof.
  unfold energy_of_data.
  destruct data as [| | | | | |kv]; try discriminate.
  unfold dict_get_default at 1 2. cbn [rbind].
  assert (Hsec : forall name kv',
            default (JObj []) (assoc name kv) = JObj kv' ->
            forall k, field (field (JObj kv) name) k = field (JObj kv') k).
  { intros name kv' H k. unfold field at 2.
    destruct (assoc name kv) as [v|]; simpl in *; [now subst|].
    injection H as <-. reflexivity. }
  destruct (default (JObj []) (assoc "EnergyInfo" kv)) as [| | | | | |kv1] eqn:H1;
    try discriminate.
  destruct (tenths (JObj kv1) "TempODA"); [discriminate|].
  destruct (tenths (JObj kv1) "TempSUP"); [discriminate|].
  destruct (tenths (JObj kv1) "TempETA"); [discriminate|].
  destruct (tenths (JObj kv1) "TempEHA"); [discriminate|].
  cbn [rbind]. unfold dict_get, dict_get_default. cbn [rbind].
  destruct (default (JObj []) (assoc "EnergyFan" kv)) as [| | | | | |kv2] eqn:H2;
    try discriminate.
  intros [= <-].
  cbn [bypass_status filter_remaining_time supply_fan_speed
       supply_fan_pwm_percentage exhaust_fan_speed exhaust_fan_pwm_percentage].
  rewrite !(Hsec _ _ H1), !(Hsec _ _ H2). repeat split; reflexivity.
Qed.

(** X4: in every energy info that is returned, the bypass status, the
    filter time and the four fan fields are the raw fields of the
    [EnergyInfo] and [EnergyFan] sections as they came; unlike a
    temperature, a zero is kept. *)
Theorem energy_fields_raw {World} (get : Request -> World -> result Response * World)
    (host : string) (st st' : St World) (info : DucoBoxEnergyInfo) :
  async_get_energy_info World get host st = (inr (Some info), st') ->
  exists response data,
    fst (get (box_info_request host) (world st)) = inr response
    /\ body response = Some data
    /\ bypass_status info = field (field data "EnergyInfo") "BypassStatus"
    /\ filter_remaining_time info
       = field (field data "EnergyInfo") "FilterRemainingTime"
    /\ supply_fan_speed info = field (field data "EnergyFan") "SupplyFanSpeed"
    /\ supply_fan_pwm_percentage info
       = field (field data "EnergyFan") "SupplyFanPwmPercentage"
    /\ exhaust_fan_speed info = field (field data "EnergyFan") "ExhaustFanSpeed"
    /\ exhaust_fan_pwm_percentage info
       = field (field data "EnergyFan") "ExhaustFanPwmPercentage".
Proof.
  rewrite energy_info_run.
  destruct (get (box_info_request host) (world st)) as [[e|response] w];
    [discriminate|].
  destruct (raise_for_status response); [discriminate|].
  unfold response_json. destruct (body response) as [data|] eqn:Hbody;
    [|discriminate].
  destruct (energy_of_data data) as [e|info'] eqn:Hinfo; [discriminate|].
  intros [= <- _]. exists response, data.
  split; [reflexivity|]. split; [assumption|]. now apply energy_of_data_fields.
Qed.

(** X4 on a body whose filter time and supply fan speed are zero. *)
Lemma energy_fields_raw_witness :
  let body0 :=
    JObj [("EnergyInfo", JObj [("FilterRemainingTime", JInt 0);
                               ("BypassStatus", JInt 100)]);
          ("EnergyFan", JObj [("SupplyFanSpeed", JInt 0)])] in
  let device := constant_device (inr {| status := 200; body := Some body0 |}) in
  exists info st',
    async_get_energy_info unit device "duco" (start tt) = (inr (Some info), st')
    /\ filter_remaining_time info = JInt 0
    /\ supply_fan_speed info = JInt 0
    /\ exhaust_fan_speed info = JNull.
Proof.
  cbv zeta. eexists. eexists. split; [vm_compute; reflexivity|].
  destruct (energy_fields_raw
              (constant_device
                 (inr {| status := 200;
                         body := Some
                           (JObj [("EnergyInfo",
                                   JObj [("FilterRemainingTime", JInt 0);
                                         ("BypassStatus", JInt 100)]);
                                  ("EnergyFan",
                                   JObj [("SupplyFanSpeed", JInt 0)])]) |}))
              "duco" (start tt) _ _ eq_refl)
    as (response & data & Hget & Hbody & _ & Hfilter & Hsupply & _ & Hexhaust & _).
  injection Hget as <-. injection Hbody as <-.
  split; [exact Hfilter|]. split; [exact Hsupply|exact Hexhaust].
Defined.

(** X5: a body that is an object without the [EnergyInfo] and [EnergyFan]
    sections, under any status below 400, gives an energy info, not [None],
    and every field of it is absent. *)
Theorem energy_sections_missing {World}
    (get : Request -> World -> result Response * World)
    (host : string) (st : St World) (response : Response)
    (kv : list (string * json)) :
  fst (get (box_info_request host) (world st)) = inr response ->
  status response < 400 ->
  body response = Some (JObj kv) ->
  assoc "EnergyInfo" kv = None ->
  assoc "EnergyFan" kv = None ->
  fst (async_get_energy_info World get host st) = inr (Some no_energy_info).
Proof.
  intros Hget Hstatus Hbody Hinfo Hfan. rewrite energy_info_run.
  destruct (get (box_info_request host) (world st)) as [r w]. cbn [fst] in *.
  subst r. unfold raise_for_status, response_json.
  destruct (400 <=? status response) eqn:Hs; [lia|]. rewrite Hbody.
  unfold energy_of_data, dict_get_default. rewrite Hinfo, Hfan. reflexivity.
Qed.

(** X5 on an empty object answered with status 204. *)
Lemma energy_sections_missing_witness :
  fst (async_get_energy_info unit
         (constant_device (inr {| status := 204; body := Some (JObj []) |}))
         "duco" (start tt))
    = inr (Some no_energy_info).
Proof.
  exact (energy_sections_missing
           (constant_device (inr {| status := 204; body := Some (JObj []) |}))
           "duco" (start tt) _ [] eq_refl ltac:(simpl; lia) eq_refl eq_refl eq_refl).
Defined.

Lemma tenths_not_a_number kv k :
  truthy (field (JObj kv) k) = true ->
  is_number (field (JObj kv) k) = false ->
  tenths (JObj kv) k = inl TypeError.
Proof.
  unfold tenths, dict_get, dict_get_default, field. cbn [rbind].
  intros ->. destruct (default JNull (assoc k kv)); try discriminate; reflexivity.
Qed.

(** X6: one temperature that is present, truthy and not a number (a
    non-empty string, list or object) voids the whole reading: the result is
    [None], whatever the other fields hold. *)
Theorem energy_bad_temperature {World}
    (get : Request -> World -> result Response * World)
    (host : string) (st : St World) (response : Response) (data : json)
    (key : string) :
  fst (get (box_info_request host) (world st)) = inr response ->
  body response = Some data ->
  key ∈ ["TempODA"; "TempSUP"; "TempETA"; "TempEHA"] ->
  truthy (field (field data "EnergyInfo") key) = true ->
  is_number (field (field data "EnergyInfo") key) = false ->
  fst (async_get_energy_info World get host st) = inr None.
Proof.
  intros Hget Hbody Hkey Htruthy Hnumber. rewrite energy_info_run.
  destruct (get (box_info_request host) (world st)) as [r w]. cbn [fst] in *.
  subst r. destruct (raise_for_status response); [reflexivity|].
  unfold response_json. rewrite Hbody.
  destruct (energy_of_data data) as [e|info] eqn:Hinfo; [reflexivity|].
  exfalso. revert Hinfo. unfold energy_of_data.
  destruct data as [| | | | | |kv]; try discriminate.
  unfold dict_get_default at 1 2. cbn [rbind].
  assert (Hsec : exists kv1,
            default (JObj []) (assoc "EnergyInfo" kv) = JObj kv1
            /\ field (field (JObj kv) "EnergyInfo") key = field (JObj kv1) key).
  { unfold field at 2 in Htruthy. unfold field at 2.
    destruct (assoc "EnergyInfo" kv) as [[| | | | | |kv1]|]; try discriminate Htruthy.
    exists kv1. split; reflexivity. }
  destruct Hsec as (kv1 & -> & Heq). rewrite Heq in Htruthy, Hnumber.
  pose proof (tenths_not_a_number kv1 key Htruthy Hnumber) as Hbad.
  apply list_elem_of_In in Hkey. simpl in Hkey.
  destruct Hkey as [<-|[<-|[<-|[<-|[]]]]];
    repeat match goal with
    | |- context [tenths (JObj kv1) ?k] =>
        first [ rewrite Hbad; discriminate
              | destruct (tenths (JObj kv1) k); cbn [rbind]; [discriminate|] ]
    end.
Qed.

(** X6 on a supply temperature sent as the string [n/a] beside a good
    outdoor temperature. *)
Lemma energy_bad_temperature_witness :
  let body0 := JObj [("EnergyInfo", JObj [("TempODA", JInt 215);
                                          ("TempSUP", JStr "n/a")])] in
  fst (async_get_energy_info unit
         (constant_device (inr {| status := 200; body := Some body0 |}))
         "duco" (start tt))
    = inr None.
Proof.
  exact (energy_bad_temperature
           (constant_device
              (inr {| status := 200;
                      body := Some (JObj [("EnergyInfo",
                                           JObj [("TempODA", JInt 215);
                                                 ("TempSUP", JStr "n/a")])]) |}))
           "duco" (start tt) _ _ "TempSUP" eq_refl eq_refl
           ltac:(apply list_elem_of_In; simpl; tauto) eq_refl eq_refl).
Defined.

(** ** Node configuration *)

Lemma create_param_object kv key :
  create_param (JObj kv) key = inr (param_of (field (JObj kv) key)).
Proof.
  unfold create_param, lookup_dict, field, param_of.
  destruct (assoc key kv) as [[| | | | | |p]|]; reflexivity.
Qed.

Lemma node_config_needs_object id data config :
  node_config_of_data id data = inr config -> is_object data = true.
Proof.
  destruct data; try reflexivity; unfold node_config_of_data;
    repeat match goal with
    | |- context [create_param ?d ?k] =>
        destruct (create_param d k); cbn [rbind]; [discriminate|]
    end; discriminate.
Qed.

Lemma node_config_of_object id kv :
  node_config_of_data id (JObj kv) = inr (node_level_config id (JObj kv)).
Proof.
  unfold node_config_of_data. rewrite !create_param_object. reflexivity.
Qed.

Lemma box_config_of_objects id kv ekv :
  box_config_of_data id (JObj kv) (JObj ekv) =
    inr (merged_config id (JObj kv) (JObj [("Energy", JObj ekv)])).
Proof.
  unfold box_config_of_data. rewrite !create_param_object. reflexivity.
Qed.

(** X7: for a node other than the box, [async_get_node_config] never raises
    and issues exactly one request, [/nodeconfigget] for that node; it
    returns a configuration only for a 200 answer whose body decodes to an
    object, and then the nine node-level slots are read off that body while
    the twelve other slots are [None]. *)
Theorem node_config_plain_node {World}
    (get : Request -> World -> result Response * World)
    (host : string) (st : St World) (id : Z) :
  id <> 1 ->
  let request := {| url := "http://" +:+ host +:+ "/nodeconfigget";
                    params := [("node", PInt id)];
                    timeout := 10 |} in
  async_get_node_config World get host id st =
    (inr match fst (get request (world st)) with
         | inr response =>
             if status response =? 200
             then match body response with
                  | Some (JObj kv) => Some (node_level_config id (JObj kv))
                  | _ => None
                  end
             else None
         | inl _ => None
         end,
     {| world := snd (get request (world st)); trace := trace st ++ [request] |}).
Proof.
  intros Hid request. change request with (node_config_request host id).
  unfold async_get_node_config.
  destruct (id =? 1) eqn:E; [apply Z.eqb_eq in E; contradiction|].
  rewrite run_try, run_get.
  destruct (get (node_config_request host id) (world st)) as [[e|response] w];
    cbn [fst snd]; [reflexivity|].
  destruct (status response =? 200); [|reflexivity].
  rewrite run_lift. unfold response_json.
  destruct (body response) as [data|]; [|reflexivity].
  rewrite run_lift.
  destruct (node_config_of_data id data) as [e|config] eqn:Hconfig.
  - destruct data; try reflexivity. now rewrite node_config_of_object in Hconfig.
  - pose proof (node_config_needs_object _ _ _ Hconfig) as Hobj.
    destruct data; try discriminate Hobj.
    rewrite node_config_of_object in Hconfig. now injection Hconfig as <-.
Qed.

(** X7 on node 5 of a device that answers the node config read. *)
Lemma node_config_plain_node_witness :
  exists config,
    fst (async_get_node_config unit (url_device config_device) "duco" 5 (start tt))
      = inr (Some config)
    /\ co2_setpoint config
       = Some {| val := JInt 800; min := JInt 400; max := JInt 2000; inc := JInt 10 |}
    /\ manual1 config
       = Some {| val := JInt 0; min := JInt 0; max := JInt 0; inc := JInt 1 |}
    /\ manual2 config = None
    /\ comfort_temperature config = None
    /\ length (trace (snd (async_get_node_config unit (url_device config_device)
                             "duco" 5 (start tt)))) = 1%nat.
Proof.
  rewrite (node_config_plain_node (url_device config_device) "duco" (start tt) 5
             ltac:(lia)).
  eexists. split; [reflexivity|]. repeat split; reflexivity.
Defined.

(** X8: for the box, when both reads are answered 200 with bodies that
    decode to objects and the [Energy] section is missing or an object, the
    result is the union of the two: node-level slots from the node body,
    box-level slots from the [Energy] section, after exactly two requests,
    [/nodeconfigget] then [/boxconfigget]. *)
Theorem node_config_box_merge {World}
    (get : Request -> World -> result Response * World)
    (host : string) (st : St World)
    (r1 r2 : Response) (w1 w2 : World) (nkv bkv : list (string * json)) :
  get (node_config_request host 1) (world st) = (inr r1, w1) ->
  get (box_config_request host) w1 = (inr r2, w2) ->
  status r1 = 200 -> body r1 = Some (JObj nkv) ->
  status r2 = 200 -> body r2 = Some (JObj bkv) ->
  is_object (from_option id (JObj []) (assoc "Energy" bkv)) = true ->
  async_get_node_config World get host 1 st =
    (inr (Some (merged_config 1 (JObj nkv) (JObj bkv))),
     {| world := w2;
        trace := trace st ++
                 [ {| url := "http://" +:+ host +:+ "/nodeconfigget";
                      params := [("node", PInt 1)];
                      timeout := 10 |};
                   {| url := "http://" +:+ host +:+ "/boxconfigget";
                      params := [];
                      timeout := 10 |} ] |}).
Proof.
  intros H1 H2 Hs1 Hb1 Hs2 Hb2 Henergy.
  unfold async_get_node_config. change (1 =? 1) with true. cbv iota.
  rewrite run_try, run_get, H1, run_lift, Hs1. change (200 =? 200) with true.
  unfold response_json at 1. rewrite Hb1. cbv iota.
  rewrite run_get. cbn [world]. rewrite H2, run_lift, Hs2.
  change (200 =? 200) with true. unfold response_json. rewrite Hb2.
  cbn [rbind]. unfold dict_get_default.
  destruct (from_option id (JObj []) (assoc "Energy" bkv)) as [| | | | | |ekv] eqn:He;
    try discriminate Henergy.
  rewrite run_lift, box_config_of_objects. cbn [trace].
  rewrite <- app_assoc. cbn [app]. unfold ret. f_equal. f_equal. f_equal.
  unfold merged_config. cbv zeta.
  assert (Hf : forall k, field (field (JObj bkv) "Energy") k
                         = field (field (JObj [("Energy", JObj ekv)]) "Energy") k).
  { intros k. unfold field at 2 4. cbn [assoc String.eqb]. 
    destruct (assoc "Energy" bkv) as [v|]; cbn [from_option id] in *.
    - now subst v.
    - injection He as <-. reflexivity. }
  now rewrite !Hf.
Qed.

(** X8 on a device that answers both reads: a comfort temperature of 0 is
    present with value 0, not absent. *)
Lemma node_config_box_merge_witness :
  exists config,
    fst (async_get_node_config unit (url_device config_device) "duco" 1 (start tt))
      = inr (Some config)
    /\ co2_setpoint config
       = Some {| val := JInt 800; min := JInt 400; max := JInt 2000; inc := JInt 10 |}
    /\ comfort_temperature config
       = Some {| val := JInt 0; min := JInt 0; max := JInt 0; inc := JInt 1 |}
    /\ bypass_mode config = None
    /\ cfg_location config = JStr "Living".
Proof.
  rewrite (node_config_box_merge (url_device config_device) "duco" (start tt)
             _ _ _ _ _ _ eq_refl eq_refl eq_refl eq_refl eq_refl eq_refl eq_refl).
  eexists. split; [reflexivity|]. repeat split; reflexivity.
Defined.

(** X9: for the box, [async_get_node_config] never raises and issues one or
    two requests: [/nodeconfigget], then [/boxconfigget] unless the first
    read raised or was answered 200 with a body that does not decode. *)
Theorem node_config_box_requests {World}
    (get : Request -> World -> result Response * World)
    (host : string) (st : St World) :
  let run := async_get_node_config World get host 1 st in
  (exists result, fst run = inr result)
  /\ trace (snd run) =
       trace st ++
       {| url := "http://" +:+ host +:+ "/nodeconfigget";
          params := [("node", PInt 1)];
          timeout := 10 |}
       :: (if read_aborts (fst (get (node_config_request host 1) (world st)))
           then []
           else [ {| url := "http://" +:+ host +:+ "/boxconfigget";
                     params := [];
                     timeout := 10 |} ]).
Proof.
  cbv zeta. unfold async_get_node_config. change (1 =? 1) with true. cbv iota.
  rewrite run_try, run_get.
  destruct (get (node_config_request host 1) (world st)) as [[e|r1] w1];
    cbn [fst snd read_aborts]; [split; [eauto|reflexivity]|].
  rewrite run_lift.
  assert (Hbox : forall node_data st1,
            let run := (let (r, st') :=
                  bind (http_get get (box_config_request host))
                    (fun box_response =>
                       bind (lift (if status box_response =? 200
                                   then box_data <~ response_json box_response;;
                                        dict_get_default box_data "Energy" (JObj [])
                                   else inr (JObj [])))
                         (fun energy_data =>
                            bind (lift (box_config_of_data 1 node_data energy_data))
                              (fun config => ret (Some config)))) st1 in
                 match r with
                 | inl e => ret None st'
                 | inr a => (inr a, st')
                 end) in
            (exists result, fst run = inr result)
            /\ trace (snd run) = trace st1 ++ [box_config_request host]).
  { intros node_data st1. cbv zeta. rewrite run_get.
    destruct (get (box_config_request host) (world st1)) as [[e|r2] w2];
      [split; [eauto|reflexivity]|].
    rewrite run_lift.
    destruct (if status r2 =? 200 then _ else _); [split; [eauto|reflexivity]|].
    rewrite run_lift.
    destruct (box_config_of_data 1 node_data j); split; eauto. }
  destruct (status r1 =? 200); cbn [andb].
  - destruct (body r1) as [d1|] eqn:Hb1.
    + assert (response_json r1 = inr d1) as ->
        by (unfold response_json; now rewrite Hb1).
      destruct (Hbox d1 {| world := w1;
                           trace := trace st ++ [node_config_request host 1] |})
        as [Hres Htrace].
      split; [exact Hres|]. rewrite Htrace. cbn [trace].
      now rewrite <- app_assoc.
    + assert (response_json r1 = inl DecodeError) as ->
        by (unfold response_json; now rewrite Hb1).
      split; [eauto|reflexivity].
  - destruct (Hbox (JObj []) {| world := w1;
                                trace := trace st ++ [node_config_request host 1] |})
      as [Hres Htrace].
    split; [exact Hres|]. rewrite Htrace. cbn [trace].
    now rewrite <- app_assoc.
Qed.

(** ** Writes *)

(** X10: [async_set_node_override] checks no range: for every node id and
    every integer percentage it issues exactly one request,
    [/nodesetoverrule] with the id and the percentage as given, never
    raises, and returns [True] exactly when the answer has status 200. *)
Theorem override_passes_value {World}
    (get : Request -> World -> result Response * World)
    (host : string) (st : St World) (id percentage : Z) :
  let request := {| url := "http://" +:+ host +:+ "/nodesetoverrule";
                    params := [("node", PInt id); ("value", PInt percentage)];
                    timeout := 10 |} in
  async_set_node_override World get host id percentage st =
    (inr match fst (get request (world st)) with
         | inr response => status response =? 200
         | inl _ => false
         end,
     {| world := snd (get request (world st)); trace := trace st ++ [request] |}).
Proof.
  intros request. change request with (override_request host id percentage).
  unfold async_set_node_override. rewrite run_try, run_get.
  destruct (get (override_request host id percentage) (world st))
    as [[e|response] w]; cbn [fst snd]; [reflexivity|].
  destruct (status response =? 200); reflexivity.
Qed.

Lemma reverse_map_lookup state :
  str_lookup state STATE_REVERSE_MAP = code_of_label state.
Proof.
  unfold code_of_label.
  change STATE_REVERSE_MAP with
    [("Auto", "AUTO"); ("Manual 1", "MAN1"); ("Manual 1 Forced", "CNT1");
     ("Manual 2", "MAN2"); ("Manual 2 Forced", "CNT2"); ("Manual 3", "MAN3");
     ("Manual 3 Forced", "CNT3"); ("Away", "EMPT")].
  unfold STATE_MAP. cbn [str_lookup find fst snd].
  repeat match goal with
  | |- context [String.eqb ?a state] => destruct (String.eqb a state); [reflexivity|]
  end.
  reflexivity.
Qed.

(** X11: [async_set_ventilation_state] issues exactly one request,
    [/nodesetoperstate] for node 1, whose value is the code of the table
    when the argument is one of its labels and the argument itself
    otherwise; so a raw code is sent as it is, and setting by code or by
    label does the same. *)
Theorem set_state_value {World} (get : Request -> World -> result Response * World)
    (host : string) (st : St World) (state : string) :
  trace (snd (async_set_ventilation_state World get host state st)) =
    trace st ++
    [ {| url := "http://" +:+ host +:+ "/nodesetoperstate";
         params := [("node", PInt 1);
                    ("value", PStr (from_option id state (code_of_label state)))];
         timeout := 10 |} ]
  /\ Forall (fun entry =>
               async_set_ventilation_state World get host (fst entry) st
               = async_set_ventilation_state World get host (snd entry) st)
            STATE_MAP.
Proof.
  split.
  - unfold async_set_ventilation_state. rewrite reverse_map_lookup, run_get.
    change {| url := "http://" +:+ host +:+ "/nodesetoperstate";
              params := [("node", PInt 1);
                         ("value", PStr (default state (code_of_label state)))];
              timeout := 10 |}
      with (set_state_request host (default state (code_of_label state))).
    destruct (get _ (world st)) as [[e|response] w]; [reflexivity|].
    rewrite run_lift. destruct (raise_for_status response); reflexivity.
  - repeat constructor.
Qed.

Lemma py_int_rejects value :
  number_to_Q value = None -> exists e, py_int value = inl e.
Proof.
  destruct value as [z|[s|s| |s m e]]; simpl; try discriminate; eauto.
Qed.

(** X12: a value that is not a finite number (NaN or an infinity) is
    refused before anything is sent: [async_set_node_config] returns [False],
    issues no request and leaves the device as it was. *)
Theorem set_config_rejects_non_finite {World}
    (get : Request -> World -> result Response * World)
    (host : string) (st : St World) (id : Z) (parameter : string)
    (value : number) :
  number_to_Q value = None ->
  async_set_node_config World get host id parameter value st = (inr false, st).
Proof.
  intros Hvalue. apply py_int_rejects in Hvalue as [e He].
  unfold async_set_node_config. rewrite run_try.
  destruct ((id =? 1) && in_box_level_params parameter);
    rewrite run_lift, He; reflexivity.
Qed.

(** X12 on NaN. *)
Lemma set_config_rejects_non_finite_witness :
  async_set_node_config unit
    (constant_device (inr {| status := 200; body := None |}))
    "duco" 1 "ComfortTemperature" (NFloat S754_nan) (start tt)
  = (inr false, start tt).
Proof.
  exact (set_config_rejects_non_finite
           (constant_device (inr {| status := 200; body := None |}))
           "duco" (start tt) 1 "ComfortTemperature" (NFloat S754_nan) eq_refl).
Defined.

(** ** The state read *)

Lemma friendly_state_spec v :
  friendly_state v = if unhashable v then inl TypeError else inr (label_of v).
Proof.
  unfold friendly_state, unhashable, label_of.
  destruct v as [|b|z|f|s|l|kv]; cbn [truthy].
  - reflexivity.
  - destruct b; reflexivity.
  - destruct (negb (z =? 0)); reflexivity.
  - destruct (negb (float_is_zero f)); reflexivity.
  - destruct (negb (String.eqb s "")) eqn:E.
    + destruct (str_lookup s STATE_MAP); reflexivity.
    + apply negb_false_iff, String.eqb_eq in E. subst s. reflexivity.
  - destruct l; reflexivity.
  - destruct kv; reflexivity.
Qed.

(** What [async_get_data] does once its own request is answered. *)
Lemma get_data_run {World} (get : Request -> World -> result Response * World)
    host fetch_energy fetch_nodes st :
  async_get_data World get host fetch_energy fetch_nodes st =
    let (r, w) := get (state_request host) (world st) in
    let st1 := {| world := w; trace := trace st ++ [state_request host] |} in
    match state_read r with
    | inl e => (inl e, st1)
    | inr kv =>
        let data := JObj kv in
        if unhashable (field data "state")
        then (inl TypeError, st1)
        else
          let (energy, st2) :=
            if fetch_energy
            then async_get_energy_info World get host st1
            else (inr None, st1) in
          match energy with
          | inl e => (inl e, st2)
          | inr energy =>
              let (found, st3) :=
                if fetch_nodes
                then async_get_nodes World get host st2
                else (inr [], st2) in
              match found with
              | inl e => (inl e, st3)
              | inr found =>
                  (inr {| data_state := label_of (field data "state");
                          time_state_remain := field data "cntdwn";
                          time_state_end := field data "endtime";
                          data_mode := field data "mode";
                          flow_lvl_tgt := field data "trgt";
                          data_rh := field data "rh";
                          energy_info := energy;
                          nodes := found |}, st3)
              end
          end
    end.
Proof.
  unfold async_get_data. rewrite run_get.
  destruct (get (state_request host) (world st)) as [[e|response] w];
    [reflexivity|].
  cbv zeta. unfold state_read, raise_for_status, response_json.
  rewrite run_lift. destruct (400 <=? status response); [reflexivity|].
  rewrite run_lift. destruct (body response) as [data|]; [|reflexivity].
  destruct data as [| | | | | |kv]; try reflexivity.
  unfold dict_get, dict_get_default.
  repeat (rewrite run_lift; cbv beta iota).
  change (default JNull (assoc "state" kv)) with (field (JObj kv) "state").
  rewrite friendly_state_spec.
  destruct (unhashable (field (JObj kv) "state")); [reflexivity|].
  repeat (rewrite run_lift; cbv beta iota).
  unfold bind at 1.
  destruct fetch_energy.
  - destruct (async_get_energy_info World get host _) as [[e|energy] st2];
      [reflexivity|].
    unfold bind. destruct fetch_nodes.
    + destruct (async_get_nodes World get host st2) as [[e|found] st3]; reflexivity.
    + reflexivity.
  - unfold ret at 1. unfold bind. destruct fetch_nodes.
    + destruct (async_get_nodes World get host _) as [[e|found] st3]; reflexivity.
    + reflexivity.
Qed.

(** X13: [async_get_data] raises exactly when its own read fails, with the
    exception of that failure: what the transport raised,
    [ClientResponseError] for a status of 400 or more, a decode error for a
    body that does not decode, [AttributeError] for a body that is not an
    object, [TypeError] for a [state] that is a non-empty list or object.
    It then stops after that one request.  Otherwise it returns, whatever
    the energy read and the node probes do, and its requests are the state
    read, then [/boxinfoget] if energy is fetched, then the 60 probes if
    nodes are fetched; what is not fetched is [None] and the empty list. *)
Theorem get_data_outcome {World} (get : Request -> World -> result Response * World)
    (host : string) (fetch_energy fetch_nodes : bool) (st : St World) :
  let request := {| url := "http://" +:+ host +:+ "/nodeinfoget";
                    params := [("node", PInt 1)];
                    timeout := 10 |} in
  let run := async_get_data World get host fetch_energy fetch_nodes st in
  let failure :=
    match state_read (fst (get request (world st))) with
    | inl e => Some e
    | inr kv => if unhashable (field (JObj kv) "state") then Some TypeError else None
    end in
  match failure with
  | Some e =>
      run = (inl e, {| world := snd (get request (world st));
                       trace := trace st ++ [request] |})
  | None =>
      exists data,
        fst run = inr data
        /\ trace (snd run) =
             trace st ++ [request]
             ++ (if fetch_energy then [box_info_request host] else [])
             ++ (if fetch_nodes then map (probe_request host) candidates else [])
        /\ (fetch_energy = false -> energy_info data = None)
        /\ (fetch_nodes = false -> nodes data = [])
  end.
Proof.
  intros request run failure. subst run failure.
  change request with (state_request host). rewrite get_data_run.
  destruct (get (state_request host) (world st)) as [r w]. cbn [fst snd].
  destruct (state_read r) as [e|kv]; [reflexivity|]. cbv zeta.
  destruct (unhashable (field (JObj kv) "state")); [reflexivity|].
  set (st1 := {| world := w; trace := trace st ++ [state_request host] |}).
  assert (Hen : exists energy st2,
            (if fetch_energy then async_get_energy_info World get host st1
             else (inr None, st1)) = (inr energy, st2)
            /\ trace st2 = trace st1
                 ++ (if fetch_energy then [box_info_request host] else [])
            /\ (fetch_energy = false -> energy = None)).
  { destruct fetch_energy.
    - rewrite energy_info_run. destruct (get (box_info_request host) (world st1)).
      eexists; eexists. split; [reflexivity|]. split; [reflexivity|discriminate].
    - exists None, st1. now rewrite app_nil_r. }
  destruct Hen as (energy & st2 & -> & Ht2 & Hoff).
  assert (Hno : exists found st3,
            (if fetch_nodes then async_get_nodes World get host st2
             else (inr [], st2)) = (inr found, st3)
            /\ trace st3 = trace st2
                 ++ (if fetch_nodes then map (probe_request host) candidates else [])
            /\ (fetch_nodes = false -> found = [])).
  { destruct fetch_nodes.
    - rewrite scan_all. destruct (scan_replies get host candidates (world st2)).
      eexists; eexists. split; [reflexivity|]. split; [reflexivity|discriminate].
    - exists [], st2. now rewrite app_nil_r. }
  destruct Hno as (found & st3 & -> & Ht3 & Hnone).
  eexists. split; [reflexivity|]. cbn [fst snd energy_info nodes].
  split; [|split; assumption].
  rewrite Ht3, Ht2. subst st1. cbn [trace]. now rewrite <- !app_assoc.
Qed.

(** X14: in the data that [async_get_data] returns, [state] is the label of
    the device's state code when the table knows the code and the raw value
    otherwise, and mode, target flow, humidity, countdown and end time are
    the raw fields of the body; the humidity is not sanitized, a zero or a
    negative one is kept. *)
Theorem get_data_fields {World} (get : Request -> World -> result Response * World)
    (host : string) (fetch_energy fetch_nodes : bool) (st st' : St World)
    (data : DucoBoxData) :
  async_get_data World get host fetch_energy fetch_nodes st = (inr data, st') ->
  exists response body0,
    fst (get (state_request host) (world st)) = inr response
    /\ body response = Some body0
    /\ data_state data = label_of (field body0 "state")
    /\ data_mode data = field body0 "mode"
    /\ flow_lvl_tgt data = field body0 "trgt"
    /\ data_rh data = field body0 "rh"
    /\ time_state_remain data = field body0 "cntdwn"
    /\ time_state_end data = field body0 "endtime".
Proof.
  rewrite get_data_run.
  destruct (get (state_request host) (world st)) as [r w]. cbn [fst].
  destruct (state_read r) as [e|kv] eqn:Hread; [discriminate|].
  apply state_read_ok in Hread as (response & -> & _ & Hjson).
  unfold response_json in Hjson.
  destruct (body response) as [body0|] eqn:Hbody; [|discriminate].
  injection Hjson as ->. cbv zeta.
  destruct (unhashable (field (JObj kv) "state")); [discriminate|].
  destruct (if fetch_energy then _ else _) as [[e|energy] st2]; [discriminate|].
  destruct (if fetch_nodes then _ else _) as [[e|found] st3]; [discriminate|].
  intros [= <- _]. exists response, (JObj kv).
  split; [reflexivity|]. split; [assumption|]. repeat split; reflexivity.
Qed.

(** X14 on a box that reports an unknown state code and a humidity of 0. *)
Lemma get_data_fields_witness :
  let body0 := JObj [("state", JStr "XYZ1"); ("rh", JInt 0); ("trgt", JInt 40)] in
  let device := constant_device (inr {| status := 200; body := Some body0 |}) in
  exists data st',
    async_get_data unit device "duco" false false (start tt) = (inr data, st')
    /\ data_state data = JStr "XYZ1"
    /\ data_rh data = JInt 0
    /\ data_mode data = JNull.
Proof.
  cbv zeta. eexists. eexists. split; [vm_compute; reflexivity|].
  destruct (get_data_fields
              (constant_device
                 (inr {| status := 200;
                         body := Some (JObj [("state", JStr "XYZ1");
                                             ("rh", JInt 0);
                                             ("trgt", JInt 40)]) |}))
              "duco" false false (start tt) _ _ eq_refl)
    as (response & body0 & Hget & Hbody & Hstate & Hmode & _ & Hrh & _).
  injection Hget as <-. injection Hbody as <-.
  split; [exact Hstate|]. split; [exact Hrh|exact Hmode].
Defined.

(** ** Detection and device identity *)

Lemma key_in_mentions key data :
  match key_in key data with
  | inr b => b = mentions key data
  | inl _ => mentions key data = false
  end.
Proof.
  destruct data as [| | | | | |kv]; simpl; try reflexivity.
  destruct (assoc key kv); reflexivity.
Qed.

Lemma key_in_raises key1 key2 data e :
  key_in key1 data = inl e -> exists e', key_in key2 data = inl e'.
Proof. destruct data; simpl; try discriminate; eauto. Qed.

(** X15: [detect_api_type] issues exactly one request, [/nodeinfoget] for
    node 1 with a 5 second timeout; it returns the client class exactly when
    the answer has status 200 and a body that decodes and mentions both
    [devtype] and [state], whatever their values; in every other case,
    whatever went wrong, it raises [ClientError] and nothing else. *)
Theorem detection_outcome {World} (get : Request -> World -> result Response * World)
    (host : string) (st : St World) :
  let request := {| url := "http://" +:+ host +:+ "/nodeinfoget";
                    params := [("node", PInt 1)];
                    timeout := 5 |} in
  detect_api_type World get host st =
    (if detected (fst (get request (world st)))
     then inr DucoCommunicationPrintApi
     else inl ClientError,
     {| world := snd (get request (world st)); trace := trace st ++ [request] |}).
Proof.
  intros request. change request with (detect_request host).
  unfold detect_api_type, detect_attempt, detected, bind at 1.
  rewrite run_try, run_get.
  destruct (get (detect_request host) (world st)) as [[e|response] w];
    cbn [fst snd]; [reflexivity|].
  destruct (status response =? 200); cbn [andb]; [|reflexivity].
  rewrite run_lift. unfold response_json.
  destruct (body response) as [data|]; [|reflexivity].
  rewrite run_lift.
  pose proof (key_in_mentions "devtype" data) as Hdev.
  pose proof (key_in_mentions "state" data) as Hstate.
  destruct (key_in "devtype" data) as [e|has_devtype] eqn:Hk1.
  { rewrite Hdev. reflexivity. }
  subst has_devtype. destruct (mentions "devtype" data); cbn [andb]; [|reflexivity].
  rewrite run_lift.
  destruct (key_in "state" data) as [e|has_state].
  { rewrite Hstate. reflexivity. }
  subst has_state. destruct (mentions "state" data); reflexivity.
Qed.

(** X16: [async_get_device_info] issues exactly one request and fails hard:
    it raises what the transport raised, [ClientResponseError] for a status
    of 400 or more, a decode error or [AttributeError] for a body that does
    not decode to an object, and [ClientError] when [serialnb] is missing or
    null.  Otherwise the info carries the serial number as sent (an empty
    one included), the software version as API version, no MAC address, and
    the label built from [devtype] (default [Unknown]) and [location]
    (default empty). *)
Theorem device_info_outcome {World}
    (get : Request -> World -> result Response * World) (host : string)
    (py_str : json -> string) (py_strip py_title : string -> string)
    (st : St World) :
  let request := {| url := "http://" +:+ host +:+ "/nodeinfoget";
                    params := [("node", PInt 1)];
                    timeout := 10 |} in
  async_get_device_info World get host py_str py_strip py_title st =
    (match state_read (fst (get request (world st))) with
     | inl e => inl e
     | inr kv =>
         match field (JObj kv) "serialnb" with
         | JNull => inl ClientError
         | serial =>
             inr {| model :=
                      py_title
                        (replace_underscores
                           (py_strip
                              (py_str (from_option id (JStr "Unknown")
                                         (assoc "devtype" kv))
                               +:+ " "
                               +:+ py_str (from_option id (JStr "")
                                             (assoc "location" kv)))));
                    api_version := field (JObj kv) "swversion";
                    serial_number := serial;
                    mac_address := JNull |}
         end
     end,
     {| world := snd (get request (world st)); trace := trace st ++ [request] |}).
Proof.
  intros request. change request with (device_info_request host).
  unfold async_get_device_info. rewrite run_get.
  destruct (get (device_info_request host) (world st)) as [[e|response] w];
    cbn [fst snd]; [reflexivity|].
  unfold state_read, raise_for_status, response_json.
  rewrite run_lift. destruct (400 <=? status response); [reflexivity|].
  rewrite run_lift. destruct (body response) as [data|]; [|reflexivity].
  destruct data as [| | | | | |kv]; try reflexivity.
  unfold dict_get, dict_get_default, field, model_label.
  repeat (rewrite run_lift; cbv beta iota).
  destruct (default JNull (assoc "serialnb" kv)); reflexivity.
Qed.

(** ** The reverse table *)

Lemma str_lookup_store k v k' d :
  str_lookup k' (str_store k v d) =
    if String.eqb k k' then Some v else str_lookup k' d.
Proof.
  induction d as [|[k0 v0] d IH]; simpl.
  - reflexivity.
  - destruct (String.eqb k0 k) eqn:E0; simpl.
    + apply String.eqb_eq in E0. subst k0. destruct (String.eqb k k'); reflexivity.
    + destruct (String.eqb k0 k') eqn:E1.
      * apply String.eqb_eq in E1. subst k0.
        rewrite String.eqb_sym, E0. reflexivity.
      * exact IH.
Qed.

Lemma dict_reversed_lookup d acc v :
  v ∉ map snd d ->
  str_lookup v (fold_left (fun acc kv => str_store (snd kv) (fst kv) acc) d acc)
  = str_lookup v acc.
Proof.
  revert acc. induction d as [|[k0 v0] d IH]; intros acc Hnot; simpl; [reflexivity|].
  rewrite IH by (intros H; apply Hnot; now right).
  rewrite str_lookup_store. cbn [fst snd].
  destruct (String.eqb v0 v) eqn:E; [|reflexivity].
  apply String.eqb_eq in E. subst v0. exfalso. apply Hnot. now left.
Qed.

(** X17: the comprehension that builds the reverse table inverts any table
    whose values are pairwise distinct: every entry [(k, v)] of the table is
    found back as [v -> k]. *)
Theorem dict_reversed_inverts (d : list (string * string)) (k v : string) :
  NoDup (map snd d) ->
  (k, v) ∈ d ->
  str_lookup v (dict_reversed d) = Some k.
Proof.
  unfold dict_reversed. generalize (@nil (string * string)) as acc.
  induction d as [|[k0 v0] d IH]; intros acc Hdup Hin.
  - inversion Hin.
  - cbn [map snd] in Hdup. apply NoDup_cons in Hdup as [Hfresh Hdup].
    cbn [fold_left fst snd].
    apply elem_of_cons in Hin as [[= <- <-]|Hin].
    + rewrite dict_reversed_lookup by exact Hfresh.
      rewrite str_lookup_store, String.eqb_refl. reflexivity.
    + now apply IH.
Qed.

(** X17 on the state table and its entry for [Away]. *)
Lemma dict_reversed_inverts_witness :
  str_lookup "Away" (dict_reversed STATE_MAP) = Some "EMPT".
Proof.
  exact (dict_reversed_inverts STATE_MAP "EMPT" "Away"
           ltac:(apply (bool_decide_unpack _); vm_compute; exact I)
           ltac:(apply list_elem_of_In; simpl; tauto)).
Defined.

(** ** Faults stay where they are *)

(** X18: however many probes raise, each fault costs its own candidate and
    nothing else: a device that raises on the candidates marked faulty and
    answers the others like a second device returns the nodes of the second
    device without those of the faulty candidates. *)
Theorem scan_faults_contained (f g : Request -> result Response)
    (host : string) (faulty : Z -> bool) (st : St unit) :
  (forall i, faulty i = true -> exists e, f (probe_request host i) = inl e) ->
  (forall i, faulty i = false -> f (probe_request host i) = g (probe_request host i)) ->
  exists found_f found_g,
    fst (async_get_nodes unit (fun req u => (f req, u)) host st) = inr found_f
    /\ fst (async_get_nodes unit (fun req u => (g req, u)) host st) = inr found_g
    /\ found_f = filter (fun n => faulty (node_id n) = false) found_g.
Proof.
  intros Hfaulty Hother. rewrite !scan_all, !scan_replies_stateless.
  eexists; eexists; split; [reflexivity|]; split; [reflexivity|].
  induction candidates as [|i ids IH]; [reflexivity|]. cbn [map omap list_omap].
  destruct (faulty i) eqn:Hi.
  - destruct (Hfaulty i Hi) as [e He].
    unfold contribution at 1; cbn [fst snd]. rewrite He.
    destruct (contribution (i, g (probe_request host i))) as [n|] eqn:Hn;
      [|exact IH].
    apply contribution_Some in Hn as (_ & _ & _ & _ & Hid & _).
    rewrite filter_cons_False by (rewrite Hid, Hi; discriminate). exact IH.
  - rewrite (Hother i Hi).
    destruct (contribution (i, g (probe_request host i))) as [n|] eqn:Hn;
      [|exact IH].
    apply contribution_Some in Hn as (_ & _ & _ & _ & Hid & _).
    rewrite filter_cons_True by (now rewrite Hid). now rewrite IH.
Qed.

(** X18 on a device whose node 3 times out and the same device once node 3
    answers. *)
Lemma scan_faults_contained_witness :
  exists found_f found_g,
    fst (async_get_nodes unit (fun req u => (flaky_answer req, u)) "duco" (start tt))
      = inr found_f
    /\ fst (async_get_nodes unit (fun req u => (steady_answer req, u)) "duco" (start tt))
       = inr found_g
    /\ found_f = filter (fun n => (node_id n =? 3) = false) found_g
    /\ map node_id found_f = [2; 4]
    /\ map node_id found_g = [2; 3; 4].
Proof.
  destruct (scan_faults_contained flaky_answer steady_answer "duco"
              (fun i => i =? 3) (start tt)) as (found_f & found_g & Hf & Hg & Heq).
  { intros i Hi. apply Z.eqb_eq in Hi. subst i. exists TimeoutError. reflexivity. }
  { intros i Hi. unfold steady_answer. cbn [params probe_request].
    now rewrite Hi. }
  exists found_f, found_g. split; [exact Hf|]. split; [exact Hg|].
  split; [exact Heq|].
  assert (Hf' : inr found_f
                = fst (async_get_nodes unit (fun req u => (flaky_answer req, u))
                         "duco" (start tt))) by (symmetry; exact Hf).
  assert (Hg' : inr found_g
                = fst (async_get_nodes unit (fun req u => (steady_answer req, u))
                         "duco" (start tt))) by (symmetry; exact Hg).
  vm_compute in Hf', Hg'. injection Hf' as ->. injection Hg' as ->.
  split; reflexivity.
Defined.

(** ** A scalar where the Energy section belongs *)

Lemma create_param_scalar v key :
  is_scalar v = true -> create_param v key = inl TypeError.
Proof. destruct v; try discriminate; reflexivity. Qed.

Lemma box_config_scalar_energy id node_data v :
  is_scalar v = true -> exists e, box_config_of_data id node_data v = inl e.
Proof.
  intros Hv. unfold box_config_of_data.
  repeat match goal with
  | |- context [create_param node_data ?k] =>
      destruct (create_param node_data k); cbn [rbind]; [eauto|]
  end.
  rewrite (create_param_scalar v _ Hv). cbn [rbind]. eauto.
Qed.

(** X19: for the box, a box config body whose [Energy] entry is present but
    null, a boolean or a number voids the whole configuration: the result is
    [None], the node-level parameters included, whatever the node config
    read returned. *)
Theorem node_config_scalar_energy {World}
    (get : Request -> World -> result Response * World)
    (host : string) (st : St World)
    (r1 : result Response) (r2 : Response) (w1 w2 : World)
    (bkv : list (string * json)) (v : json) :
  get (node_config_request host 1) (world st) = (r1, w1) ->
  get (box_config_request host) w1 = (inr r2, w2) ->
  status r2 = 200 ->
  body r2 = Some (JObj bkv) ->
  assoc "Energy" bkv = Some v ->
  is_scalar v = true ->
  fst (async_get_node_config World get host 1 st) = inr None.
Proof.
  intros H1 H2 Hs2 Hb2 Henergy Hv.
  unfold async_get_node_config. change (1 =? 1) with true. cbv iota.
  rewrite run_try, run_get, H1.
  destruct r1 as [e1|resp1]; [reflexivity|].
  rewrite run_lift.
  destruct (if status resp1 =? 200 then response_json resp1 else inr (JObj []))
    as [e|node_data]; [reflexivity|].
  rewrite run_get. cbn [world]. rewrite H2, run_lift, Hs2.
  change (200 =? 200) with true. unfold response_json. rewrite Hb2.
  cbn [rbind]. unfold dict_get_default. rewrite Henergy. cbn [from_option id].
  rewrite run_lift.
  destruct (box_config_scalar_energy 1 node_data v Hv) as [e ->]. reflexivity.
Qed.

(** X19 on a device whose node config read is fine. *)
Lemma node_config_scalar_energy_witness :
  fst (async_get_node_config unit (url_device null_energy_device) "duco" 1 (start tt))
    = inr None.
Proof.
  exact (node_config_scalar_energy (url_device null_energy_device) "duco" (start tt)
           _ _ _ _ _ JNull eq_refl eq_refl eq_refl eq_refl eq_refl eq_refl).
Defined.
